(** * dockercloud-haproxy: the configuration synthesiser [haproxy/haproxycfg.py]

    A shallow embedding of class [Haproxy]: the certificate aggregator
    ([_config_ssl_certs], [_config_ssl_cacerts]), the section builders,
    the assembler ([update]) and the change detector ([_update_haproxy]).

    Class attributes ([Haproxy.cls_cfg], [Haproxy.cls_certs],
    [Haproxy.cls_process]) persist across cycles; instance attributes
    ([self.ssl_updated], ...) live for one cycle.  Both are threaded through
    a small state monad together with the trace of external effects.

    [_initialize] talks to the remote API and to [parser.Specs]; what it
    leaves in [self.specs], the topology, is an input of each cycle here. *)

From Stdlib Require Import String Ascii List Bool Arith Lia Permutation.
Import ListNotations.
Open Scope string_scope.

(** ** Python values used by the module *)

Module Py.

(** Truthiness of a [str] or [None] value (an environment setting). *)
Definition truthy (v : option string) : bool :=
  match v with
  | None => false
  | Some "" => false
  | Some _ => true
  end.

(** Truthiness of a [str]. *)
Definition str_truthy (s : string) : bool :=
  match s with
  | EmptyString => false
  | String _ _ => true
  end.

(** Truthiness of a list. *)
Definition nonempty {A : Type} (l : list A) : bool :=
  match l with
  | [] => false
  | _ :: _ => true
  end.

(** Characters removed by [str.strip()]. *)
Definition is_space (c : ascii) : bool :=
  match nat_of_ascii c with
  | 9 | 10 | 11 | 12 | 13 | 32 => true
  | _ => false
  end.

Fixpoint lstrip (s : string) : string :=
  match s with
  | EmptyString => EmptyString
  | String c s' => if is_space c then lstrip s' else s
  end.

Fixpoint rstrip (s : string) : string :=
  match s with
  | EmptyString => EmptyString
  | String c s' =>
      match rstrip s' with
      | EmptyString => if is_space c then EmptyString else String c EmptyString
      | r => String c r
      end
  end.

(** [s.strip()] *)
Definition strip (s : string) : string := rstrip (lstrip s).

Definition comma : ascii := ",".
Definition backslash : ascii := "\".
Definition colon : ascii := ":".

(** [re.split(r'(?<!\\),', s)]: split at every comma that is not
    preceded by a backslash.  [prev_bs] tells whether the character
    before the head of [s] is a backslash. *)
Fixpoint re_split_unescaped_comma (prev_bs : bool) (s : string) : list string :=
  match s with
  | EmptyString => [EmptyString]
  | String c s' =>
      if Ascii.eqb c comma && negb prev_bs
      then EmptyString :: re_split_unescaped_comma false s'
      else match re_split_unescaped_comma (Ascii.eqb c backslash) s' with
           | [] => [String c EmptyString]
           | t :: ts => String c t :: ts
           end
  end.

(** [s.split(":", 1)]: at most one split, at the first colon. *)
Fixpoint split_colon_1 (s : string) : list string :=
  match s with
  | EmptyString => [EmptyString]
  | String c s' =>
      if Ascii.eqb c colon then [EmptyString; s']
      else match split_colon_1 s' with
           | [] => [String c EmptyString]
           | t :: ts => String c t :: ts
           end
  end.

(** [s.replace("\,", ",")]: the two-character sequence backslash,
    comma becomes a comma; occurrences are replaced left to right
    without overlap. *)
Fixpoint replace_escaped_comma (s : string) : string :=
  match s with
  | EmptyString => EmptyString
  | String c s' =>
      match s' with
      | EmptyString => String c EmptyString
      | String c2 s'' =>
          if Ascii.eqb c backslash && Ascii.eqb c2 comma
          then String comma (replace_escaped_comma s'')
          else String c (replace_escaped_comma s')
      end
  end.

(** [" ".join(l)] *)
Fixpoint join_space (l : list string) : string :=
  match l with
  | [] => ""
  | [x] => x
  | x :: rest => x ++ " " ++ join_space rest
  end.

Definition newline : string := String (ascii_of_nat 10) EmptyString.

(** [set(a) != set(b)] is [negb (set_eqb a b)]. *)
Definition mem (x : string) (l : list string) : bool :=
  existsb (String.eqb x) l.

Definition subset (a b : list string) : bool :=
  forallb (fun x => mem x b) a.

Definition set_eqb (a b : list string) : bool :=
  subset a b && subset b a.

End Py.

(** ** [collections.OrderedDict] with string keys

    An association list in insertion order.  Assigning to an existing key
    replaces its value and keeps its position; a new key goes last. *)

Module OrderedDict.

Definition t : Type := list (string * list string).

Definition empty : t := [].

(** [d[k] = v] *)
Fixpoint set (k : string) (v : list string) (d : t) : t :=
  match d with
  | [] => [(k, v)]
  | (k', v') :: d' =>
      if String.eqb k k' then (k, v) :: d' else (k', v') :: set k v d'
  end.

(** [d.update(e)] *)
Definition update (d e : t) : t :=
  fold_left (fun acc kv => set (fst kv) (snd kv) acc) e d.

Fixpoint get (k : string) (d : t) : option (list string) :=
  match d with
  | [] => None
  | (k', v') :: d' => if String.eqb k k' then Some v' else get k d'
  end.

Definition keys (d : t) : list string := map fst d.

Definition has_key (k : string) (d : t) : bool :=
  match get k d with Some _ => true | None => false end.

(** Position a key takes when it is assigned: its own if the key is
    known, last otherwise. *)
Definition add_key (ks : list string) (k : string) : list string :=
  if Py.mem k ks then ks else ks ++ [k].

(** Distinct keys of a sequence of assignments, by first assignment. *)
Definition first_insertion_order (ks : list string) : list string :=
  fold_left add_key ks [].

End OrderedDict.

(** ** Settings imported from [haproxy.config] (environment derived) *)

Definition Cert : Type := string.

Record Config : Type := {
  HAPROXY_CONTAINER_URI : option string;
  HAPROXY_SERVICE_URI : option string;
  API_AUTH : option string;
  HAPROXY_CONFIG_FILE : string;
  CERT_DIR : string;
  CACERT_DIR : string;
  DEFAULT_SSL_CERT : option Cert;
  EXTRA_SSL_CERT : option string;
  DEFAULT_CA_CERT : option Cert;
  HTTP_BASIC_AUTH : option string;
  RSYSLOG_DESTINATION : string;
  MAXCONN : string;
  SSL_BIND_OPTIONS : option string;
  SSL_BIND_CIPHERS : option string;
  EXTRA_GLOBAL_SETTINGS : option string;
  EXTRA_DEFAULT_SETTINGS : option string;
  STATS_PORT : string;
  STATS_AUTH : string;
  EXTRA_BIND_SETTINGS : list (string * string);
  BALANCE : string;
  MODE : string;
  OPTION : list string;
  TIMEOUT : list string
}.

(** [HAPROXY_SERVICE_URI and HAPROXY_CONTAINER_URI and API_AUTH] *)
Definition api_mode (c : Config) : bool :=
  Py.truthy (HAPROXY_SERVICE_URI c) && Py.truthy (HAPROXY_CONTAINER_URI c)
  && Py.truthy (API_AUTH c).

(** [EXTRA_BIND_SETTINGS.get(k, "")] *)
Fixpoint bind_settings_get (k : string) (d : list (string * string)) : string :=
  match d with
  | [] => ""
  | (k', v) :: d' => if String.eqb k k' then v else bind_settings_get k d'
  end.

(** ** Static sections *)

(** [Haproxy._config_userlist_section] *)
Definition userlist_entry (auth : string) : list string :=
  if Py.str_truthy (Py.strip auth) then
    match Py.split_colon_1 (Py.strip auth) with
    | [t0; t1] =>
        ["user " ++ Py.replace_escaped_comma t0 ++ " insecure-password "
           ++ Py.replace_escaped_comma t1]
    | _ => []
    end
  else [].

Definition _config_userlist_section (basic_auth : option string) : OrderedDict.t :=
  match basic_auth with
  | Some auth_string =>
      if Py.truthy basic_auth then
        let auth_list := Py.re_split_unescaped_comma false auth_string in
        let userlist := flat_map userlist_entry auth_list in
        if Py.nonempty userlist
        then OrderedDict.set "userlist haproxy_userlist" userlist OrderedDict.empty
        else OrderedDict.empty
      else OrderedDict.empty
  | None => OrderedDict.empty
  end.


(** ** Collaborators outside this module

    The helper packages ([helper.*], [utils], [parser]) are imported by
    [haproxycfg.py] and are not part of it.  Their pure functions form the
    interface below; the shapes of the topology data they consume stay
    abstract.  [get_service_attribute] stands for the truthiness of the
    attribute it returns, the only way this module looks at it.
    [set_iter l] is the order in which CPython iterates [set(l)]. *)

Class Helpers : Type := {
  Details : Type;
  Routes : Type;
  Route : Type;
  Vhost : Type;
  (* helper.ssl_helper *)
  get_extra_ssl_certs : option string -> list Cert;
  (* helper.config_helper *)
  config_ssl_bind_options : option string -> list string;
  config_ssl_bind_ciphers : option string -> list string;
  config_extra_settings : option string -> list string;
  config_option : list string -> list string;
  config_timeout : list string -> list string;
  (* helper.tcp_helper *)
  get_tcp_port_list : Details -> list string -> list string;
  parse_port_string : string -> option string -> bool * string;
  get_tcp_routes : Details -> Routes -> string -> string -> list string * list Route;
  get_service_aliases_given_tcp_port : Details -> list string -> string -> list string;
  get_tcp_balance : Details -> list string;
  get_tcp_options : Details -> list string -> list string;
  get_tcp_extra_settings : Details -> list string -> list string;
  (* helper.frontend_helper *)
  config_frontend_with_virtual_host : list Vhost -> option string -> OrderedDict.t * bool;
  check_require_default_route : Routes -> list Route -> bool;
  config_default_frontend : option string -> OrderedDict.t * bool;
  config_monitor_frontend : bool -> OrderedDict.t;
  (* helper.backend_helper *)
  get_backend_section :
    Details -> Routes -> list Vhost -> option string -> list Route -> list string;
  (* utils *)
  get_service_attribute : Details -> string -> option string -> bool;
  get_bind_string : bool -> string -> option string -> list (string * string) -> string;
  prettify : OrderedDict.t -> string;
  (* builtin set *)
  set_iter : list string -> list string
}.

(** The topology of one cycle: what [parser.Specs] answers. *)
Record Specs `{Helpers} : Type := {
  get_details : Details;
  get_service_aliases : list string;
  get_routes : Routes;
  get_vhosts : list Vhost;
  get_default_ssl_cert : list Cert;
  get_ssl_cert : list Cert
}.

(** ** State and effects *)

(** Handle of a balancer process. *)
Definition Process : Type := nat.

(** Class attributes of [Haproxy]: they outlive the instance. *)
Record ClassState : Type := {
  cls_cfg : option string;
  cls_process : option Process;
  cls_certs : list Cert
}.

(** [Haproxy.cls_cfg = None], [cls_process = None], [cls_certs = []] *)
Definition class_init : ClassState :=
  {| cls_cfg := None; cls_process := None; cls_certs := [] |}.

(** Instance attributes set by [__init__]. *)
Record Instance `{Helpers} : Type := {
  ssl_bind_string : option string;
  ssl_updated : bool;
  routes_added : list Route;
  require_default_route : bool
}.

Definition instance_init `{Helpers} : Instance :=
  {| ssl_bind_string := None; ssl_updated := false;
     routes_added := []; require_default_route := false |}.

(** Calls that leave the process, in program order. *)
Inductive Event : Type :=
| Log (msg : string)
| SaveToFile (name content : string)
| SaveCerts (dir : string) (certs : list Cert)
| RunReload (old : option Process)
| RunOnce.

(** What the outside world answers during one cycle: the result of
    [save_to_file] and the process returned by [run_reload]. *)
Record World : Type := {
  save_to_file_result : bool;
  run_reload_result : option Process
}.

Record State `{Helpers} : Type := {
  cls : ClassState;
  self : Instance;
  trace : list Event
}.

Definition M `{Helpers} (A : Type) : Type := State -> A * State.

Definition ret `{Helpers} {A : Type} (a : A) : M A := fun st => (a, st).

Definition bind `{Helpers} {A B : Type} (m : M A) (k : A -> M B) : M B :=
  fun st => let (a, st') := m st in k a st'.

Declare Scope haproxy_scope.
Delimit Scope haproxy_scope with haproxy.
Notation "x <- m ;; k" := (bind m (fun x => k))
  (at level 61, m at next level, right associativity) : haproxy_scope.
Notation "m ;; k" := (bind m (fun _ => k))
  (at level 61, right associativity) : haproxy_scope.
Open Scope haproxy_scope.

Section Effects.
Context `{Helpers}.

Definition gets {A : Type} (f : State -> A) : M A := fun st => (f st, st).

Definition emit (e : Event) : M unit :=
  fun st => (tt, {| cls := cls st; self := self st; trace := trace st ++ [e] |}).

Definition logger_info (msg : string) : M unit := emit (Log msg).

Definition modify_cls (f : ClassState -> ClassState) : M unit :=
  fun st => (tt, {| cls := f (cls st); self := self st; trace := trace st |}).

Definition modify_self (f : Instance -> Instance) : M unit :=
  fun st => (tt, {| cls := cls st; self := f (self st); trace := trace st |}).

Definition set_cls_cfg (v : option string) : M unit :=
  modify_cls (fun c =>
    {| cls_cfg := v; cls_process := cls_process c; cls_certs := cls_certs c |}).

Definition set_cls_process (v : option Process) : M unit :=
  modify_cls (fun c =>
    {| cls_cfg := cls_cfg c; cls_process := v; cls_certs := cls_certs c |}).

Definition set_cls_certs (v : list Cert) : M unit :=
  modify_cls (fun c =>
    {| cls_cfg := cls_cfg c; cls_process := cls_process c; cls_certs := v |}).

Definition set_ssl_bind_string (v : option string) : M unit :=
  modify_self (fun s =>
    {| ssl_bind_string := v; ssl_updated := ssl_updated s;
       routes_added := routes_added s;
       require_default_route := require_default_route s |}).

Definition set_ssl_updated (v : bool) : M unit :=
  modify_self (fun s =>
    {| ssl_bind_string := ssl_bind_string s; ssl_updated := v;
       routes_added := routes_added s;
       require_default_route := require_default_route s |}).

Definition set_routes_added (v : list Route) : M unit :=
  modify_self (fun s =>
    {| ssl_bind_string := ssl_bind_string s; ssl_updated := ssl_updated s;
       routes_added := v;
       require_default_route := require_default_route s |}).

Definition set_require_default_route (v : bool) : M unit :=
  modify_self (fun s =>
    {| ssl_bind_string := ssl_bind_string s; ssl_updated := ssl_updated s;
       routes_added := routes_added s;
       require_default_route := v |}).

End Effects.

(** ** Class [Haproxy] *)

Section Haproxy.
Context `{Helpers}.
Variable conf : Config.
Variable specs : Specs.

(** [[X] if X else []] for a setting [X] *)
Definition if_set (v : option string) : list string :=
  match v with
  | Some s => if Py.truthy v then [s] else []
  | None => []
  end.

(** The list [certs] built by [_config_ssl_certs]. *)
Definition leaf_certs : list Cert :=
  concat [if_set (DEFAULT_SSL_CERT conf);
          get_extra_ssl_certs (EXTRA_SSL_CERT conf);
          get_default_ssl_cert specs;
          get_ssl_cert specs].

(** The list [cacerts] built by [_config_ssl_cacerts]. *)
Definition ca_certs : list Cert := if_set (DEFAULT_CA_CERT conf).

(** [Haproxy._config_ssl_certs] *)
Definition _config_ssl_certs : M string :=
  let certs := leaf_certs in
  if Py.nonempty certs then
    last_certs <- gets (fun st => cls_certs (cls st)) ;;
    (if negb (Py.set_eqb certs last_certs) then
       set_cls_certs certs ;;
       set_ssl_updated true ;;
       emit (SaveCerts (CERT_DIR conf) certs) ;;
       logger_info "SSL certificates are updated"
     else ret tt) ;;
    ret "ssl crt /certs/"
  else ret "".

(** [Haproxy._config_ssl_cacerts] *)
Definition _config_ssl_cacerts : M string :=
  let cacerts := ca_certs in
  if Py.nonempty cacerts then
    last_certs <- gets (fun st => cls_certs (cls st)) ;;
    (if negb (Py.set_eqb cacerts last_certs) then
       set_cls_certs cacerts ;;
       set_ssl_updated true ;;
       emit (SaveCerts (CACERT_DIR conf) cacerts) ;;
       logger_info "SSL CA certificates are updated"
     else ret tt) ;;
    ret " ca-file /cacerts/cert0.pem verify required"
  else ret "".

(** [Haproxy._config_ssl] *)
Definition _config_ssl : M unit :=
  s1 <- _config_ssl_certs ;;
  s2 <- _config_ssl_cacerts ;;
  let ssl_bind := ("" ++ s1) ++ s2 in
  if Py.str_truthy ssl_bind then set_ssl_bind_string (Some ssl_bind) else ret tt.

(** [Haproxy._config_global_section] *)
Definition _config_global_section : OrderedDict.t :=
  let statements := concat
    [["log " ++ RSYSLOG_DESTINATION conf ++ " local0";
      "log " ++ RSYSLOG_DESTINATION conf ++ " local1 notice";
      "log-send-hostname";
      "maxconn " ++ MAXCONN conf;
      "pidfile /var/run/haproxy.pid";
      "user haproxy";
      "group haproxy";
      "daemon";
      "stats socket /var/run/haproxy.stats level admin"];
     config_ssl_bind_options (SSL_BIND_OPTIONS conf);
     config_ssl_bind_ciphers (SSL_BIND_CIPHERS conf);
     config_extra_settings (EXTRA_GLOBAL_SETTINGS conf)] in
  OrderedDict.set "global" statements OrderedDict.empty.

(** [Haproxy._config_stats_section] *)
Definition _config_stats_section : OrderedDict.t :=
  let bind_ :=
    Py.join_space [STATS_PORT conf;
                   bind_settings_get (STATS_PORT conf) (EXTRA_BIND_SETTINGS conf)] in
  OrderedDict.set "listen stats"
    ["bind :" ++ Py.strip bind_;
     "mode http";
     "stats enable";
     "timeout connect 10s";
     "timeout client 1m";
     "timeout server 1m";
     "stats hide-version";
     "stats realm Haproxy\ Statistics";
     "stats uri /";
     "stats auth " ++ STATS_AUTH conf]
    OrderedDict.empty.

(** [Haproxy._config_defaults_section] *)
Definition _config_defaults_section : OrderedDict.t :=
  let statements := concat
    [["balance " ++ BALANCE conf;
      "log global";
      "mode " ++ MODE conf];
     config_option (OPTION conf);
     config_timeout (TIMEOUT conf);
     config_extra_settings (EXTRA_DEFAULT_SETTINGS conf)] in
  OrderedDict.set "defaults" statements OrderedDict.empty.

(** [Haproxy.get_tcp_section] *)
Definition get_tcp_section (details : Details) (services_aliases : list string)
    (tcp_port : string) : M (list string * string) :=
  bind_opts <- gets (fun st => ssl_bind_string (self st)) ;;
  let (enable_ssl, port_num) := parse_port_string tcp_port bind_opts in
  let bind_string :=
    get_bind_string enable_ssl port_num bind_opts (EXTRA_BIND_SETTINGS conf) in
  let (tcp_routes, added) :=
    get_tcp_routes details (get_routes specs) tcp_port port_num in
  set_routes_added added ;;
  let services :=
    get_service_aliases_given_tcp_port details services_aliases tcp_port in
  let balance := get_tcp_balance details in
  let options := get_tcp_options details services in
  let extra_settings := get_tcp_extra_settings details services in
  ret (concat [["bind :" ++ Py.strip bind_string; "mode tcp"];
               balance; options; extra_settings; tcp_routes],
       port_num).

(** The loop of [_config_tcp_sections], over the ports still to visit. *)
Fixpoint tcp_loop (details : Details) (services_aliases : list string)
    (ports : list string) (cfg : OrderedDict.t) : M OrderedDict.t :=
  match ports with
  | [] => ret cfg
  | tcp_port :: rest =>
      r <- get_tcp_section details services_aliases tcp_port ;;
      tcp_loop details services_aliases rest
        (OrderedDict.set ("listen port_" ++ snd r) (fst r) cfg)
  end.

(** [Haproxy._config_tcp_sections] *)
Definition _config_tcp_sections : M OrderedDict.t :=
  let details := get_details specs in
  let services_aliases := get_service_aliases specs in
  let cfg := OrderedDict.empty in
  if negb (get_service_attribute details "tcp_ports" None) then ret cfg
  else
    let tcp_ports := get_tcp_port_list details services_aliases in
    tcp_loop details services_aliases (set_iter tcp_ports) cfg.

(** [Haproxy._config_frontend_sections] *)
Definition _config_frontend_sections : M OrderedDict.t :=
  let vhosts := get_vhosts specs in
  bind_opts <- gets (fun st => ssl_bind_string (self st)) ;;
  r <- (if Py.nonempty vhosts then
          ret (config_frontend_with_virtual_host vhosts bind_opts)
        else
          added <- gets (fun st => routes_added (self st)) ;;
          set_require_default_route
            (check_require_default_route (get_routes specs) added) ;;
          required <- gets (fun st => require_default_route (self st)) ;;
          if required then ret (config_default_frontend bind_opts)
          else ret (OrderedDict.empty, false)) ;;
  ret (OrderedDict.update (fst r) (config_monitor_frontend (snd r))).

(** [not service_alias] *)
Definition alias_falsy (service_alias : option string) : bool :=
  negb (Py.truthy service_alias).

(** The list the loop of [_config_backend_sections] runs over. *)
Definition backend_aliases : list (option string) :=
  if negb (Py.nonempty (get_vhosts specs)) then [None]
  else map Some (get_service_aliases specs).

(** One turn of the loop of [_config_backend_sections]. *)
Definition backend_step (added : list Route) (required : bool)
    (cfg : OrderedDict.t) (service_alias : option string) : OrderedDict.t :=
  let details := get_details specs in
  let backend :=
    get_backend_section details (get_routes specs) (get_vhosts specs)
      service_alias added in
  if alias_falsy service_alias then
    if required then OrderedDict.set "backend default_service" backend cfg
    else cfg
  else
    if get_service_attribute details "virtual_host" service_alias
    then OrderedDict.set
           ("backend SERVICE_" ++ match service_alias with Some a => a | None => "" end)
           backend cfg
    else OrderedDict.set "backend default_service" backend cfg.

(** [Haproxy._config_backend_sections] *)
Definition _config_backend_sections : M OrderedDict.t :=
  added <- gets (fun st => routes_added (self st)) ;;
  required <- gets (fun st => require_default_route (self st)) ;;
  ret (fold_left (backend_step added required) backend_aliases OrderedDict.empty).

(** [Haproxy._update_haproxy] *)
Definition _update_haproxy (w : World) (cfg : string) : M unit :=
  if api_mode conf then
    last_cfg <- gets (fun st => cls_cfg (cls st)) ;;
    updated <- gets (fun st => ssl_updated (self st)) ;;
    (if negb (match last_cfg with Some c => String.eqb c cfg | None => false end) then
       logger_info ("HAProxy configuration:" ++ Py.newline ++ cfg) ;;
       set_cls_cfg (Some cfg) ;;
       emit (SaveToFile (HAPROXY_CONFIG_FILE conf) cfg) ;;
       if save_to_file_result w then
         old <- gets (fun st => cls_process (cls st)) ;;
         emit (RunReload old) ;;
         set_cls_process (run_reload_result w)
       else ret tt
     else if updated then
       logger_info "SSL certificates have been changed" ;;
       old <- gets (fun st => cls_process (cls st)) ;;
       emit (RunReload old) ;;
       set_cls_process (run_reload_result w)
     else
       logger_info "HAProxy configuration remains unchanged") ;;
    logger_info "===========END==========="
  else
    logger_info ("HAProxy configuration:" ++ Py.newline ++ cfg) ;;
    emit (SaveToFile (HAPROXY_CONFIG_FILE conf) cfg) ;;
    emit RunOnce.

(** The body of [update] between [_config_ssl] and [prettify]: the
    sections in the order they are merged into [cfg_dict]. *)
Definition build_cfg_dict : M OrderedDict.t :=
  let cfg_dict := OrderedDict.empty in
  let cfg_dict := OrderedDict.update cfg_dict _config_global_section in
  let cfg_dict := OrderedDict.update cfg_dict _config_defaults_section in
  let cfg_dict := OrderedDict.update cfg_dict _config_stats_section in
  let cfg_dict :=
    OrderedDict.update cfg_dict (_config_userlist_section (HTTP_BASIC_AUTH conf)) in
  tcp <- _config_tcp_sections ;;
  let cfg_dict := OrderedDict.update cfg_dict tcp in
  frontends <- _config_frontend_sections ;;
  let cfg_dict := OrderedDict.update cfg_dict frontends in
  backends <- _config_backend_sections ;;
  let cfg_dict := OrderedDict.update cfg_dict backends in
  ret cfg_dict.

(** [Haproxy.update] *)
Definition update (w : World) : M unit :=
  _config_ssl ;;
  cfg_dict <- build_cfg_dict ;;
  let cfg := prettify cfg_dict in
  _update_haproxy w cfg.

End Haproxy.

(** ** One synthesis cycle

    A cycle is [Haproxy(msg).update()]: a fresh instance working on the
    class attributes left by the cycle before. *)

Section Cycle.
Context `{Helpers}.
Variable conf : Config.
Variable specs : Specs.

Definition start (c : ClassState) : State :=
  {| cls := c; self := instance_init; trace := [] |}.

(** State after [self._config_ssl()]. *)
Definition after_ssl (c : ClassState) : State :=
  snd (_config_ssl conf specs (start c)).

(** State after [self._config_tcp_sections()]. *)
Definition after_tcp (c : ClassState) : State :=
  snd (_config_tcp_sections conf specs (after_ssl c)).

(** State after [self._config_frontend_sections()]. *)
Definition after_frontends (c : ClassState) : State :=
  snd (_config_frontend_sections specs (after_tcp c)).

(** The sections contributed by each builder during the cycle. *)
Definition tcp_sections (c : ClassState) : OrderedDict.t :=
  fst (_config_tcp_sections conf specs (after_ssl c)).

Definition frontend_sections (c : ClassState) : OrderedDict.t :=
  fst (_config_frontend_sections specs (after_tcp c)).

Definition backend_sections (c : ClassState) : OrderedDict.t :=
  fst (_config_backend_sections specs (after_frontends c)).

(** [cfg_dict] and [cfg] as [update] computes them. *)
Definition cycle_cfg_dict (c : ClassState) : OrderedDict.t :=
  fst (build_cfg_dict conf specs (after_ssl c)).

Definition cycle_text (c : ClassState) : string :=
  prettify (cycle_cfg_dict c).

(** State at the end of the cycle run in world [w]. *)
Definition cycle (w : World) (c : ClassState) : State :=
  snd (update conf specs w (start c)).

End Cycle.

(** Class states the program can be in: [class_init] at import time, then
    whatever cycles leave behind.  The settings are fixed for the process;
    topology and world change from cycle to cycle. *)
Inductive reachable `{Helpers} (conf : Config) : ClassState -> Prop :=
| reach_init : reachable conf class_init
| reach_cycle : forall (specs : Specs) (w : World) (c : ClassState),
    reachable conf c -> reachable conf (cls (cycle conf specs w c)).

(** ** A small instance of the collaborators

    Concrete topology shapes and helper functions on which the model can
    be run.  They follow the topology of the specification: service
    details map an alias to its attributes, routes map an alias to its
    ordered routes, a virtual host names the service it selects. *)

Module Sample.

Record ServiceAttrs : Type := {
  attr_tcp_ports : list string;
  attr_virtual_host : string
}.

Record route : Type := {
  container_name : string;
  addr : string;
  port : string
}.

Definition route_eqb (a b : route) : bool :=
  String.eqb (container_name a) (container_name b)
  && String.eqb (addr a) (addr b) && String.eqb (port a) (port b).

Definition details : Type := list (string * ServiceAttrs).
Definition routes : Type := list (string * list route).

Record vhost : Type := { vhost_host : string; vhost_alias : string }.

Fixpoint lookup (alias : string) (d : details) : option ServiceAttrs :=
  match d with
  | [] => None
  | (a, attrs) :: d' => if String.eqb alias a then Some attrs else lookup alias d'
  end.

Definition attr_truthy (attr_name : string) (attrs : ServiceAttrs) : bool :=
  if String.eqb attr_name "tcp_ports" then Py.nonempty (attr_tcp_ports attrs)
  else if String.eqb attr_name "virtual_host" then Py.str_truthy (attr_virtual_host attrs)
  else false.

(** Modelled from the spec: [utils.get_service_attribute], absent from
    the module, over the service details (alias to attributes).  With
    an alias: that service's attribute.  Without: whether any service
    carries the attribute. *)
Definition service_attribute (d : details) (attr_name : string)
    (service_alias : option string) : bool :=
  if Py.truthy service_alias then
    match service_alias with
    | Some a =>
        match lookup a d with
        | Some attrs => attr_truthy attr_name attrs
        | None => false
        end
    | None => false
    end
  else existsb (fun kv => attr_truthy attr_name (snd kv)) d.

Definition ports_of (d : details) (alias : string) : list string :=
  match lookup alias d with
  | Some attrs => attr_tcp_ports attrs
  | None => []
  end.

Definition tcp_port_list (d : details) (aliases : list string) : list string :=
  flat_map (ports_of d) aliases.

(** Modelled from the spec: [helper.tcp_helper.parse_port_string],
    absent from the module, for tokens that declare no mode: the token
    is the port number and TLS is inherited from the bind options of
    the cycle. *)
Definition parse_port (tcp_port : string) (bind_opts : option string) : bool * string :=
  (Py.truthy bind_opts, tcp_port).

(** Modelled from the spec: [utils.get_bind_string], absent from the
    module: the port number, the TLS suffix if enabled, the extra bind
    settings keyed by the port. *)
Definition bind_string (enable_ssl : bool) (port_num : string)
    (bind_opts : option string) (extra : list (string * string)) : string :=
  Py.join_space
    [port_num;
     (if enable_ssl then match bind_opts with Some s => s | None => "" end else "");
     bind_settings_get port_num extra].

Definition server_line (r : route) : string :=
  "server " ++ container_name r ++ " " ++ addr r ++ ":" ++ port r.

(** Modelled from the spec: [helper.tcp_helper.get_tcp_routes], absent
    from the module.  It resolves the routes for this port from the
    topology's route set and reports every route consumed here: the
    routes, numbered [port_num], of the services that declare
    [tcp_port]. *)
Definition tcp_routes (d : details) (rs : routes) (tcp_port port_num : string)
    : list string * list route :=
  let consumed :=
    flat_map
      (fun kv =>
         if Py.mem tcp_port (ports_of d (fst kv))
         then filter (fun r => String.eqb (port r) port_num) (snd kv)
         else [])
      rs in
  (map server_line consumed, consumed).

Definition aliases_given_tcp_port (d : details) (aliases : list string)
    (tcp_port : string) : list string :=
  filter (fun a => Py.mem tcp_port (ports_of d a)) aliases.

Definition route_mem (r : route) (l : list route) : bool :=
  existsb (route_eqb r) l.

(** Modelled from the spec: [helper.frontend_helper.check_require_default_route],
    absent from the module.  A default route is required when some
    topology route is not in [routes_added]. *)
Definition require_default (rs : routes) (added : list route) : bool :=
  existsb (fun kv => existsb (fun r => negb (route_mem r added)) (snd kv)) rs.

(** Modelled from the spec: the two frontend builders of
    [helper.frontend_helper], absent from the module.  One HTTP
    frontend with a host rule per virtual host, each selecting the
    backend named after its service; or a catch-all frontend that
    forwards to [default_service].  Neither declares a monitoring URI. *)
Definition frontend_with_virtual_host (vhosts : list vhost)
    (bind_opts : option string) : OrderedDict.t * bool :=
  ([("frontend port_80",
     "bind :80"
       :: map (fun v => "use_backend SERVICE_" ++ vhost_alias v
                          ++ " if { hdr(host) -i " ++ vhost_host v ++ " }")
            vhosts)],
   false).

Definition default_frontend (bind_opts : option string) : OrderedDict.t * bool :=
  ([("frontend default_frontend",
     ["bind :80"; "default_backend default_service"])],
   false).

(** Modelled from the spec: [helper.backend_helper.get_backend_section],
    absent from the module.  Server entries of the routes of
    [service_alias] (of every service when there is no alias) that are
    not in [routes_added]. *)
Definition backend_section (d : details) (rs : routes) (vhosts : list vhost)
    (service_alias : option string) (added : list route) : list string :=
  flat_map
    (fun kv =>
       if match service_alias with
          | Some a => String.eqb a (fst kv)
          | None => true
          end
       then map server_line (filter (fun r => negb (route_mem r added)) (snd kv))
       else [])
    rs.

(** Modelled from the spec: [utils.prettify], absent from the module.
    Sections in the order of the dictionary, statements in the order of
    the section: a header line, then the statements, indented. *)
Definition pretty_section (kv : string * list string) : string :=
  fst kv ++ Py.newline
    ++ String.concat "" (map (fun stmt => "  " ++ stmt ++ Py.newline) (snd kv)).

Definition pretty (d : OrderedDict.t) : string :=
  String.concat "" (map pretty_section d).

(** One iteration order of a set: distinct elements by first
    occurrence. *)
Fixpoint distinct (seen l : list string) : list string :=
  match l with
  | [] => []
  | x :: l' => if Py.mem x seen then distinct seen l' else x :: distinct (x :: seen) l'
  end.

Definition helpers : Helpers := {|
  Details := details;
  Routes := routes;
  Route := route;
  Vhost := vhost;
  get_extra_ssl_certs := fun _ => [];
  config_ssl_bind_options := fun _ => [];
  config_ssl_bind_ciphers := fun _ => [];
  config_extra_settings := fun _ => [];
  config_option := map (fun o => "option " ++ o);
  config_timeout := map (fun t => "timeout " ++ t);
  get_tcp_port_list := tcp_port_list;
  parse_port_string := parse_port;
  get_tcp_routes := tcp_routes;
  get_service_aliases_given_tcp_port := aliases_given_tcp_port;
  get_tcp_balance := fun _ => [];
  get_tcp_options := fun _ _ => [];
  get_tcp_extra_settings := fun _ _ => [];
  config_frontend_with_virtual_host := frontend_with_virtual_host;
  check_require_default_route := require_default;
  config_default_frontend := default_frontend;
  config_monitor_frontend := fun _ => [];
  get_backend_section := backend_section;
  get_service_attribute := service_attribute;
  get_bind_string := bind_string;
  prettify := pretty;
  set_iter := distinct []
|}.

(** Settings of a balancer run under the remote API. *)
Definition conf_api : Config := {|
  HAPROXY_CONTAINER_URI := Some "/api/app/v1/container/c0/";
  HAPROXY_SERVICE_URI := Some "/api/app/v1/service/s0/";
  API_AUTH := Some "Basic dXNlcjprZXk=";
  HAPROXY_CONFIG_FILE := "/haproxy.cfg";
  CERT_DIR := "/certs/";
  CACERT_DIR := "/cacerts/";
  DEFAULT_SSL_CERT := None;
  EXTRA_SSL_CERT := None;
  DEFAULT_CA_CERT := None;
  HTTP_BASIC_AUTH := None;
  RSYSLOG_DESTINATION := "127.0.0.1";
  MAXCONN := "4096";
  SSL_BIND_OPTIONS := None;
  SSL_BIND_CIPHERS := None;
  EXTRA_GLOBAL_SETTINGS := None;
  EXTRA_DEFAULT_SETTINGS := None;
  STATS_PORT := "1936";
  STATS_AUTH := "stats:stats";
  EXTRA_BIND_SETTINGS := [];
  BALANCE := "roundrobin";
  MODE := "http";
  OPTION := ["redispatch"];
  TIMEOUT := ["connect 5000"]
|}.

Definition with_certs (leaf ca : option Cert) (c : Config) : Config := {|
  HAPROXY_CONTAINER_URI := HAPROXY_CONTAINER_URI c;
  HAPROXY_SERVICE_URI := HAPROXY_SERVICE_URI c;
  API_AUTH := API_AUTH c;
  HAPROXY_CONFIG_FILE := HAPROXY_CONFIG_FILE c;
  CERT_DIR := CERT_DIR c;
  CACERT_DIR := CACERT_DIR c;
  DEFAULT_SSL_CERT := leaf;
  EXTRA_SSL_CERT := EXTRA_SSL_CERT c;
  DEFAULT_CA_CERT := ca;
  HTTP_BASIC_AUTH := HTTP_BASIC_AUTH c;
  RSYSLOG_DESTINATION := RSYSLOG_DESTINATION c;
  MAXCONN := MAXCONN c;
  SSL_BIND_OPTIONS := SSL_BIND_OPTIONS c;
  SSL_BIND_CIPHERS := SSL_BIND_CIPHERS c;
  EXTRA_GLOBAL_SETTINGS := EXTRA_GLOBAL_SETTINGS c;
  EXTRA_DEFAULT_SETTINGS := EXTRA_DEFAULT_SETTINGS c;
  STATS_PORT := STATS_PORT c;
  STATS_AUTH := STATS_AUTH c;
  EXTRA_BIND_SETTINGS := EXTRA_BIND_SETTINGS c;
  BALANCE := BALANCE c;
  MODE := MODE c;
  OPTION := OPTION c;
  TIMEOUT := TIMEOUT c
|}.

(** The same settings without the remote API: the definition is read
    from the environment. *)
Definition conf_env : Config := {|
  HAPROXY_CONTAINER_URI := None;
  HAPROXY_SERVICE_URI := None;
  API_AUTH := None;
  HAPROXY_CONFIG_FILE := HAPROXY_CONFIG_FILE conf_api;
  CERT_DIR := CERT_DIR conf_api;
  CACERT_DIR := CACERT_DIR conf_api;
  DEFAULT_SSL_CERT := None;
  EXTRA_SSL_CERT := None;
  DEFAULT_CA_CERT := None;
  HTTP_BASIC_AUTH := None;
  RSYSLOG_DESTINATION := RSYSLOG_DESTINATION conf_api;
  MAXCONN := MAXCONN conf_api;
  SSL_BIND_OPTIONS := None;
  SSL_BIND_CIPHERS := None;
  EXTRA_GLOBAL_SETTINGS := None;
  EXTRA_DEFAULT_SETTINGS := None;
  STATS_PORT := STATS_PORT conf_api;
  STATS_AUTH := STATS_AUTH conf_api;
  EXTRA_BIND_SETTINGS := [];
  BALANCE := BALANCE conf_api;
  MODE := MODE conf_api;
  OPTION := OPTION conf_api;
  TIMEOUT := TIMEOUT conf_api
|}.

Definition plain : ServiceAttrs :=
  {| attr_tcp_ports := []; attr_virtual_host := "" |}.

Definition route_web : route :=
  {| container_name := "WEB_1"; addr := "10.7.0.2"; port := "80" |}.
Definition route_api : route :=
  {| container_name := "API_1"; addr := "10.7.0.3"; port := "8080" |}.
Definition route_db : route :=
  {| container_name := "DB_1"; addr := "10.7.0.4"; port := "5432" |}.

(** One plain HTTP service: no virtual host, no TCP port. *)
Definition specs_plain : @Specs helpers := {|
  get_details := ([("WEB", plain)] : @Details helpers);
  get_service_aliases := ["WEB"];
  get_routes := ([("WEB", [route_web])] : @Routes helpers);
  get_vhosts := ([] : list (@Vhost helpers));
  get_default_ssl_cert := [];
  get_ssl_cert := []
|}.

(** The same service carrying a certificate of its own. *)
Definition specs_plain_cert (pem : Cert) : @Specs helpers := {|
  get_details := ([("WEB", plain)] : @Details helpers);
  get_service_aliases := ["WEB"];
  get_routes := ([("WEB", [route_web])] : @Routes helpers);
  get_vhosts := ([] : list (@Vhost helpers));
  get_default_ssl_cert := [];
  get_ssl_cert := [pem]
|}.

(** Two services behind TCP listeners on different ports. *)
Definition specs_two_ports : @Specs helpers := {|
  get_details := ([("WEB", {| attr_tcp_ports := ["80"]; attr_virtual_host := "" |});
     ("DB", {| attr_tcp_ports := ["5432"]; attr_virtual_host := "" |})] : @Details helpers);
  get_service_aliases := ["WEB"; "DB"];
  get_routes := ([("WEB", [route_web]); ("DB", [route_db])] : @Routes helpers);
  get_vhosts := ([] : list (@Vhost helpers));
  get_default_ssl_cert := [];
  get_ssl_cert := []
|}.

(** Services with a virtual host, listed in the given order. *)
Definition specs_vhosts (aliases : list string) : @Specs helpers := {|
  get_details := ([("WEB", {| attr_tcp_ports := []; attr_virtual_host := "web.example.com" |});
     ("API", {| attr_tcp_ports := []; attr_virtual_host := "api.example.com" |})] : @Details helpers);
  get_service_aliases := aliases;
  get_routes := ([("WEB", [route_web]); ("API", [route_api])] : @Routes helpers);
  get_vhosts := ([{| vhost_host := "api.example.com"; vhost_alias := "API" |};
     {| vhost_host := "web.example.com"; vhost_alias := "WEB" |}] : list (@Vhost helpers));
  get_default_ssl_cert := [];
  get_ssl_cert := []
|}.

(** One service with a virtual host and two without. *)
Definition specs_mixed : @Specs helpers := {|
  get_details := ([("WEB", {| attr_tcp_ports := []; attr_virtual_host := "web.example.com" |});
     ("API", plain);
     ("DB", plain)] : @Details helpers);
  get_service_aliases := ["WEB"; "API"; "DB"];
  get_routes := ([("WEB", [route_web]); ("API", [route_api]); ("DB", [route_db])] : @Routes helpers);
  get_vhosts := ([{| vhost_host := "web.example.com"; vhost_alias := "WEB" |}] : list (@Vhost helpers));
  get_default_ssl_cert := [];
  get_ssl_cert := []
|}.

Definition world_ok : World :=
  {| save_to_file_result := true; run_reload_result := Some 4711 |}.

Definition world_write_fails : World :=
  {| save_to_file_result := false; run_reload_result := Some 4711 |}.

End Sample.

(** ** What the certificate aggregator computes

    Closed forms of the effect of [_config_ssl] on the class attribute
    [cls_certs], on the bind options and on the trace, as functions of
    the certificate set left by the cycle before. *)

Section CertificateAggregator.
Context `{Helpers}.
Variable conf : Config.
Variable specs : Specs.

(** [certs and set(certs) != set(last)] *)
Definition ssl_changed (certs last : list Cert) : bool :=
  Py.nonempty certs && negb (Py.set_eqb certs last).

(** [Haproxy.cls_certs] after [_config_ssl_certs]. *)
Definition certs_after_leaf (last : list Cert) : list Cert :=
  if ssl_changed (leaf_certs conf specs) last then leaf_certs conf specs else last.

(** [Haproxy.cls_certs] after [_config_ssl]. *)
Definition certs_after_ssl (last : list Cert) : list Cert :=
  if ssl_changed (ca_certs conf) (certs_after_leaf last) then ca_certs conf
  else certs_after_leaf last.

(** The string [_config_ssl] accumulates. *)
Definition ssl_bind_value : string :=
  (if Py.nonempty (leaf_certs conf specs) then "ssl crt /certs/" else "")
  ++ (if Py.nonempty (ca_certs conf)
      then " ca-file /cacerts/cert0.pem verify required" else "").

(** Effects of [_config_ssl]. *)
Definition ssl_events (last : list Cert) : list Event :=
  ((if ssl_changed (leaf_certs conf specs) last
    then [SaveCerts (CERT_DIR conf) (leaf_certs conf specs);
          Log "SSL certificates are updated"]
    else [])
   ++ (if ssl_changed (ca_certs conf) (certs_after_leaf last)
       then [SaveCerts (CACERT_DIR conf) (ca_certs conf);
             Log "SSL CA certificates are updated"]
       else []))%list.

End CertificateAggregator.

(** ** Section builders as functions of the instance

    The builders of [update] read [ssl_bind_string], [routes_added] and
    [require_default_route] and write the last two; [view] is that part of
    the state. *)

Section Builders.
Context `{Helpers}.

Definition view (st : State) : option string * list Route * bool :=
  (ssl_bind_string (self st), routes_added (self st),
   require_default_route (self st)).

(** A computation whose result and effect on [view] depend on [view]
    alone, and which leaves everything else as it was. *)
Definition builder {A : Type} (m : M A) : Prop :=
  forall st1 st2 : State,
    view st1 = view st2 ->
    fst (m st1) = fst (m st2)
    /\ view (snd (m st1)) = view (snd (m st2))
    /\ cls (snd (m st1)) = cls st1
    /\ trace (snd (m st1)) = trace st1
    /\ ssl_updated (self (snd (m st1))) = ssl_updated (self st1)
    /\ ssl_bind_string (self (snd (m st1))) = ssl_bind_string (self st1).

Definition with_trace (st : State) (tr : list Event) : State :=
  {| cls := cls st; self := self st; trace := tr |}.

Variable conf : Config.
Variable specs : Specs.

(** State in which [update] calls [_update_haproxy]. *)
Definition before_apply (c : ClassState) : State :=
  snd (build_cfg_dict conf specs (after_ssl conf specs c)).

(** Whether the backend loop assigns [backend default_service] for this
    alias, and the section name it assigns. *)
Definition writes_default (required : bool) (service_alias : option string) : bool :=
  if alias_falsy service_alias then required
  else negb (get_service_attribute (get_details specs) "virtual_host" service_alias).

Definition backend_names (required : bool) (service_alias : option string)
    : list string :=
  if alias_falsy service_alias then
    if required then ["backend default_service"] else []
  else
    if get_service_attribute (get_details specs) "virtual_host" service_alias
    then ["backend SERVICE_" ++ match service_alias with Some a => a | None => "" end]
    else ["backend default_service"].

(** Section names assigned by the loop of [_config_tcp_sections], one
    per port token in the iteration order of the set. *)
Definition tcp_names (bind_opts : option string) : list string :=
  if negb (get_service_attribute (get_details specs) "tcp_ports" None) then []
  else
    map (fun tcp_port => "listen port_" ++ snd (parse_port_string tcp_port bind_opts))
      (set_iter (get_tcp_port_list (get_details specs) (get_service_aliases specs))).

(** The second of two consecutive cycles over the same topology finds
    the same text and takes the branch that does nothing. *)
Definition second_run_unchanged (w1 w2 : World) (c0 : ClassState) : Prop :=
  let c1 := cls (cycle conf specs w1 c0) in
  cycle_text conf specs c1 = cycle_text conf specs c0
  /\ trace (cycle conf specs w2 c1)
     = [Log "HAProxy configuration remains unchanged";
        Log "===========END==========="].

End Builders.

(** ** Further closed forms and vocabulary *)

(** The way a credential list is written for [HTTP_BASIC_AUTH]: commas
    inside a field are escaped with a backslash, the two fields of an
    entry are joined by a colon, the entries by commas.  The userlist
    builder is the decoder of this format. *)

Module BasicAuth.

Fixpoint has_char (c : ascii) (s : string) : bool :=
  match s with
  | EmptyString => false
  | String c' s' => Ascii.eqb c' c || has_char c s'
  end.

(** Whether the character before the end of [s] is a backslash;
    [b] answers for the empty string. *)
Fixpoint ends_with_backslash (b : bool) (s : string) : bool :=
  match s with
  | EmptyString => b
  | String c s' => ends_with_backslash (Ascii.eqb c Py.backslash) s'
  end.

Fixpoint escape_commas (s : string) : string :=
  match s with
  | EmptyString => EmptyString
  | String c s' =>
      if Ascii.eqb c Py.comma
      then String Py.backslash (String Py.comma (escape_commas s'))
      else String c (escape_commas s')
  end.

(** No unescaped comma in [s], the character before it being a
    backslash or not according to [b]. *)
Fixpoint unsplit (b : bool) (s : string) : Prop :=
  match s with
  | EmptyString => True
  | String c s' =>
      (Ascii.eqb c Py.comma && negb b) = false /\ unsplit (Ascii.eqb c Py.backslash) s'
  end.

Definition encode_entry (cred : string * string) : string :=
  escape_commas (fst cred) ++ ":" ++ escape_commas (snd cred).

Definition encode (creds : list (string * string)) : string :=
  String.concat "," (map encode_entry creds).

(** The statement the builder emits for a credential. *)
Definition user_statement (cred : string * string) : string :=
  "user " ++ fst cred ++ " insecure-password " ++ snd cred.

(** A credential the format can carry: no colon in the user name, no
    white space around the encoded entry, no backslash at the end of
    the password (it would escape the separator that follows). *)
Definition representable (cred : string * string) : bool :=
  negb (has_char Py.colon (fst cred))
  && String.eqb (Py.strip (encode_entry cred)) (encode_entry cred)
  && negb (ends_with_backslash false (snd cred)).

End BasicAuth.

(** One assignment [d[name x] = value x] of a loop over items [x]. *)
Module Assignments.

Definition assign {A : Type} (name : A -> string) (value : A -> list string)
    (acc : OrderedDict.t) (x : A) : OrderedDict.t :=
  OrderedDict.set (name x) (value x) acc.

End Assignments.

(** Kinds of events. *)
Definition is_reload (e : Event) : bool :=
  match e with RunReload _ => true | _ => false end.

Definition is_config_write (e : Event) : bool :=
  match e with SaveToFile _ _ => true | _ => false end.

Definition is_cert_save (e : Event) : bool :=
  match e with SaveCerts _ _ => true | _ => false end.

Definition is_launch (e : Event) : bool :=
  match e with RunOnce => true | _ => false end.

Section ClosedForms.
Context `{Helpers}.
Variable conf : Config.
Variable specs : Specs.

(** What [_update_haproxy] appends to the trace, as a function of the
    text, of [Haproxy.cls_cfg], [self.ssl_updated] and
    [Haproxy.cls_process] on entry, and of the result of the write. *)
Definition detector_events (w : World) (cfg : string) (last_cfg : option string)
    (updated : bool) (old : option Process) : list Event :=
  if api_mode conf then
    ((if negb (match last_cfg with Some c => String.eqb c cfg | None => false end)
      then [Log ("HAProxy configuration:" ++ Py.newline ++ cfg);
            SaveToFile (HAPROXY_CONFIG_FILE conf) cfg]
           ++ (if save_to_file_result w then [RunReload old] else [])
      else if updated
           then [Log "SSL certificates have been changed"; RunReload old]
           else [Log "HAProxy configuration remains unchanged"])
     ++ [Log "===========END==========="])%list
  else
    [Log ("HAProxy configuration:" ++ Py.newline ++ cfg);
     SaveToFile (HAPROXY_CONFIG_FILE conf) cfg;
     RunOnce].

(** Port number and statements of the section [get_tcp_section]
    builds for a token, given the bind options of the instance. *)
Definition tcp_port_num (bind_opts : option string) (tcp_port : string) : string :=
  snd (parse_port_string tcp_port bind_opts).

Definition tcp_section_statements (bind_opts : option string) (tcp_port : string)
    : list string :=
  let details := get_details specs in
  let services :=
    get_service_aliases_given_tcp_port details (get_service_aliases specs) tcp_port in
  concat
    [["bind :"
        ++ Py.strip
             (get_bind_string (fst (parse_port_string tcp_port bind_opts))
                (tcp_port_num bind_opts tcp_port) bind_opts
                (EXTRA_BIND_SETTINGS conf));
      "mode tcp"];
     get_tcp_balance details;
     get_tcp_options details services;
     get_tcp_extra_settings details services;
     fst (get_tcp_routes details (get_routes specs) tcp_port
            (tcp_port_num bind_opts tcp_port))].

(** The tokens [_config_tcp_sections] iterates over. *)
Definition tcp_tokens : list string :=
  if negb (get_service_attribute (get_details specs) "tcp_ports" None) then []
  else set_iter (get_tcp_port_list (get_details specs) (get_service_aliases specs)).

End ClosedForms.

(** A topology for examples: the services of [Sample.specs_mixed], one
    of them carrying a certificate. *)
Module Scenario.

Definition specs_mixed_cert (pem : Cert) : @Specs Sample.helpers := {|
  get_details := (get_details Sample.specs_mixed : @Details Sample.helpers);
  get_service_aliases := get_service_aliases Sample.specs_mixed;
  get_routes := (get_routes Sample.specs_mixed : @Routes Sample.helpers);
  get_vhosts := (get_vhosts Sample.specs_mixed : list (@Vhost Sample.helpers));
  get_default_ssl_cert := [];
  get_ssl_cert := [pem]
|}.

(** Two plain HTTP services: no virtual host, no TCP port. *)
Definition specs_two_plain : @Specs Sample.helpers := {|
  get_details :=
    ([("WEB", Sample.plain); ("API", Sample.plain)] : @Details Sample.helpers);
  get_service_aliases := ["WEB"; "API"];
  get_routes :=
    ([("WEB", [Sample.route_web]); ("API", [Sample.route_api])]
     : @Routes Sample.helpers);
  get_vhosts := ([] : list (@Vhost Sample.helpers));
  get_default_ssl_cert := [];
  get_ssl_cert := []
|}.

End Scenario.

(** * Properties *)

(** ** Set comparison of certificate lists *)

Module PyFacts.
Import Py.

Lemma mem_In (x : string) (l : list string) : mem x l = true <-> In x l.
Proof.
  unfold mem. rewrite existsb_exists. split.
  - intros [y [Hy Heq]]. apply String.eqb_eq in Heq. now subst.
  - intros Hx. exists x. split; [assumption | apply String.eqb_refl].
Qed.

Lemma subset_incl (a b : list string) : subset a b = true <-> incl a b.
Proof.
  unfold subset, incl. rewrite forallb_forall.
  split; intros Hs x Hx; apply mem_In; auto.
Qed.

(** [set(a) == set(b)] holds exactly when the two lists have the same
    elements, whatever their order and multiplicity. *)
Lemma set_eqb_spec (a b : list string) :
  set_eqb a b = true <-> (forall x, In x a <-> In x b).
Proof.
  unfold set_eqb. rewrite andb_true_iff, !subset_incl. unfold incl.
  split.
  - intros [Hab Hba] x. split; auto.
  - intros Heq. split; intros x Hx; apply Heq; assumption.
Qed.

Lemma set_eqb_refl (a : list string) : set_eqb a a = true.
Proof. apply set_eqb_spec. tauto. Qed.

Lemma set_eqb_sym (a b : list string) : set_eqb a b = set_eqb b a.
Proof. unfold set_eqb. apply andb_comm. Qed.

Lemma set_eqb_trans (a b c : list string) :
  set_eqb a b = true -> set_eqb b c = true -> set_eqb a c = true.
Proof.
  rewrite !set_eqb_spec. intros Hab Hbc x.
  rewrite Hab. apply Hbc.
Qed.

(** If [a] equals [b] as a set, [c] compares to both alike. *)
Lemma set_eqb_congr (a b c : list string) :
  set_eqb a b = true -> set_eqb c a = set_eqb c b.
Proof.
  intros Hab.
  destruct (set_eqb c a) eqn:Hca, (set_eqb c b) eqn:Hcb; try reflexivity.
  - rewrite (set_eqb_trans c a b Hca Hab) in Hcb. discriminate.
  - rewrite set_eqb_sym in Hab.
    rewrite (set_eqb_trans c b a Hcb Hab) in Hca. discriminate.
Qed.

Lemma nonempty_false {A : Type} (l : list A) : nonempty l = false <-> l = [].
Proof. destruct l; simpl; split; congruence. Qed.

End PyFacts.

(** ** Ordered dictionaries *)

Module OrderedDictFacts.
Import OrderedDict.

Lemma keys_set (k : string) (v : list string) (d : t) :
  keys (set k v d) = add_key (keys d) k.
Proof.
  unfold add_key, keys. induction d as [| [k' v'] d IH]; simpl.
  - reflexivity.
  - destruct (String.eqb k k') eqn:E; simpl.
    + apply String.eqb_eq in E. now subst.
    + fold (Py.mem k (map fst d)). rewrite IH.
      destruct (Py.mem k (map fst d)); reflexivity.
Qed.

Lemma keys_update (d e : t) :
  keys (update d e) = fold_left add_key (keys e) (keys d).
Proof.
  unfold update. revert d.
  induction e as [| [k v] e IH]; intros d; simpl.
  - reflexivity.
  - rewrite IH, keys_set. reflexivity.
Qed.

Lemma update_empty_l (e : t) :
  keys (update empty e) = first_insertion_order (keys e).
Proof. apply keys_update. Qed.

Lemma fold_add_key_app (ks1 ks2 acc : list string) :
  fold_left add_key (ks1 ++ ks2) acc
  = fold_left add_key ks2 (fold_left add_key ks1 acc).
Proof. apply fold_left_app. Qed.

Lemma get_set_same (k : string) (v : list string) (d : t) :
  get k (set k v d) = Some v.
Proof.
  induction d as [| [k' v'] d IH]; simpl.
  - now rewrite String.eqb_refl.
  - destruct (String.eqb k k') eqn:E; simpl.
    + now rewrite String.eqb_refl.
    + now rewrite E.
Qed.

Lemma get_set_other (k k' : string) (v : list string) (d : t) :
  k <> k' -> get k (set k' v d) = get k d.
Proof.
  intros Hne. induction d as [| [k2 v2] d IH]; simpl.
  - apply String.eqb_neq in Hne. now rewrite Hne.
  - destruct (String.eqb k' k2) eqn:E; simpl.
    + apply String.eqb_eq in E. subst k2.
      apply String.eqb_neq in Hne. now rewrite Hne.
    + destruct (String.eqb k k2); [reflexivity | exact IH].
Qed.

Lemma get_set (k k' : string) (v : list string) (d : t) :
  get k (set k' v d) = if String.eqb k k' then Some v else get k d.
Proof.
  destruct (String.eqb k k') eqn:E.
  - apply String.eqb_eq in E. subst. apply get_set_same.
  - apply String.eqb_neq in E. now apply get_set_other.
Qed.

Lemma has_key_set (k k' : string) (v : list string) (d : t) :
  has_key k (set k' v d) = String.eqb k k' || has_key k d.
Proof.
  unfold has_key. rewrite get_set. destruct (String.eqb k k'); reflexivity.
Qed.

Lemma has_key_update (k : string) (d e : t) :
  has_key k (update d e) = has_key k d || has_key k e.
Proof.
  unfold update. revert d.
  induction e as [| [k' v'] e IH]; intros d; simpl.
  - unfold has_key. simpl. now rewrite orb_false_r.
  - rewrite IH, has_key_set. unfold has_key. simpl.
    destruct (String.eqb k k'); simpl.
    + now rewrite orb_true_r.
    + reflexivity.
Qed.

(** A key the second dictionary does not hold keeps its value. *)
Lemma get_update_absent (k : string) (d e : t) :
  has_key k e = false -> get k (update d e) = get k d.
Proof.
  unfold update. revert d.
  induction e as [| [k' v'] e IH]; intros d Hk; simpl.
  - reflexivity.
  - unfold has_key in Hk. simpl in Hk.
    destruct (String.eqb k k') eqn:E; [discriminate |].
    rewrite IH by exact Hk.
    apply get_set_other. now apply String.eqb_neq.
Qed.

Lemma get_none_not_in (k : string) (d : t) :
  ~ In k (keys d) -> get k d = None.
Proof.
  induction d as [| [k' v'] d IH]; simpl; intros Hn.
  - reflexivity.
  - destruct (String.eqb k k') eqn:E.
    + apply String.eqb_eq in E. subst. exfalso. apply Hn. now left.
    + apply IH. intros Hin. apply Hn. now right.
Qed.

(** With distinct keys in the second dictionary, [update] lets it
    win key by key. *)
Lemma get_update (k : string) (d e : t) :
  NoDup (keys e) ->
  get k (update d e)
  = match get k e with Some v => Some v | None => get k d end.
Proof.
  unfold update. revert d.
  induction e as [| [k' v'] e IH]; intros d Hnd; simpl.
  - reflexivity.
  - simpl in Hnd. inversion Hnd as [| ? ? Hnotin Hnd']; subst.
    rewrite IH by exact Hnd'. simpl. rewrite get_set.
    destruct (String.eqb k k') eqn:E.
    + apply String.eqb_eq in E. subst k'.
      now rewrite (get_none_not_in k e Hnotin).
    + reflexivity.
Qed.

Lemma in_add_key (x k : string) (ks : list string) :
  In x (add_key ks k) <-> In x ks \/ x = k.
Proof.
  unfold add_key. destruct (Py.mem k ks) eqn:E.
  - apply PyFacts.mem_In in E. split; [auto |].
    intros [Hin | ->]; assumption.
  - rewrite in_app_iff. simpl. intuition.
Qed.

Lemma in_fold_add_key (x : string) (ks acc : list string) :
  In x (fold_left add_key ks acc) <-> In x acc \/ In x ks.
Proof.
  revert acc. induction ks as [| k ks IH]; intros acc; simpl.
  - tauto.
  - rewrite IH, in_add_key. intuition.
Qed.

Lemma add_key_known (k : string) (ks : list string) :
  In k ks -> add_key ks k = ks.
Proof.
  intros Hin. unfold add_key. apply PyFacts.mem_In in Hin. now rewrite Hin.
Qed.

Lemma add_key_new (k : string) (ks : list string) :
  Py.mem k ks = false -> add_key ks k = (ks ++ [k])%list.
Proof. intros E. unfold add_key. now rewrite E. Qed.

Lemma nodup_add_key (k : string) (ks : list string) :
  NoDup ks -> NoDup (add_key ks k).
Proof.
  intros Hnd. unfold add_key. destruct (Py.mem k ks) eqn:E; [assumption |].
  apply NoDup_app; [assumption | repeat constructor; intros [] |].
  intros x Hx [Heq | []]. subst x.
  apply PyFacts.mem_In in Hx. congruence.
Qed.

Lemma nodup_fold_add_key (ks acc : list string) :
  NoDup acc -> NoDup (fold_left add_key ks acc).
Proof.
  revert acc. induction ks as [| k ks IH]; intros acc Hnd; simpl.
  - assumption.
  - apply IH, nodup_add_key, Hnd.
Qed.

Lemma nodup_keys_update (d e : t) : NoDup (keys d) -> NoDup (keys (update d e)).
Proof. intros Hnd. rewrite keys_update. now apply nodup_fold_add_key. Qed.

Lemma nodup_keys_set (k : string) (v : list string) (d : t) :
  NoDup (keys d) -> NoDup (keys (set k v d)).
Proof. intros Hnd. rewrite keys_set. now apply nodup_add_key. Qed.

(** Assigning the distinct keys of a sequence is assigning the
    sequence. *)
Lemma fold_add_key_distinct (ks acc : list string) :
  fold_left add_key (first_insertion_order ks) acc = fold_left add_key ks acc.
Proof.
  unfold first_insertion_order.
  induction ks as [| k ks IH] using rev_ind.
  - reflexivity.
  - rewrite !fold_left_app. simpl.
    destruct (Py.mem k (fold_left add_key ks [])) eqn:E.
    + assert (Hin : In k (fold_left add_key ks [])) by now apply PyFacts.mem_In.
      rewrite (add_key_known k _ Hin), IH.
      symmetry. apply add_key_known.
      apply in_fold_add_key. right.
      apply in_fold_add_key in Hin. destruct Hin as [[] | Hin]. exact Hin.
    + rewrite (add_key_new k _ E), fold_left_app. simpl. now rewrite IH.
Qed.

End OrderedDictFacts.

(** ** The certificate aggregator *)

Ltac run_monad :=
  unfold bind, ret, gets, emit, logger_info, set_cls_cfg, set_cls_process,
    set_cls_certs, set_ssl_bind_string, set_ssl_updated, set_routes_added,
    set_require_default_route, modify_cls, modify_self; simpl.

Section CertificateAggregatorFacts.
Context `{Helpers}.
Variable conf : Config.
Variable specs : Specs.

(** Symbolic run of [_config_ssl] from any state. *)
Lemma config_ssl_run (st : State) :
  _config_ssl conf specs st
  = (tt,
     {| cls := {| cls_cfg := cls_cfg (cls st);
                  cls_process := cls_process (cls st);
                  cls_certs := certs_after_ssl conf specs (cls_certs (cls st)) |};
        self := {| ssl_bind_string :=
                     if Py.str_truthy (ssl_bind_value conf specs)
                     then Some (ssl_bind_value conf specs)
                     else ssl_bind_string (self st);
                   ssl_updated :=
                     ssl_changed (ca_certs conf)
                       (certs_after_leaf conf specs (cls_certs (cls st)))
                     || (ssl_changed (leaf_certs conf specs) (cls_certs (cls st))
                         || ssl_updated (self st));
                   routes_added := routes_added (self st);
                   require_default_route := require_default_route (self st) |};
        trace := (trace st ++ ssl_events conf specs (cls_certs (cls st)))%list |}).
Proof.
  destruct st as [[cfg0 proc0 certs0] [bs0 upd0 ra0 rdr0] tr0].
  unfold _config_ssl, _config_ssl_certs, _config_ssl_cacerts,
    ssl_events, certs_after_ssl, certs_after_leaf, ssl_bind_value, ssl_changed.
  run_monad.
  destruct (Py.nonempty (leaf_certs conf specs)) eqn:Hl;
    destruct (Py.nonempty (ca_certs conf)) eqn:Hc; simpl.
  all: repeat match goal with
       | |- context [Py.set_eqb ?a ?b] => destruct (Py.set_eqb a b) eqn:?; simpl
       end.
  all: rewrite <- ?app_assoc, ?app_nil_r; simpl; try reflexivity.
Qed.

Lemma after_ssl_eq (c : ClassState) :
  after_ssl conf specs c
  = {| cls := {| cls_cfg := cls_cfg c;
                 cls_process := cls_process c;
                 cls_certs := certs_after_ssl conf specs (cls_certs c) |};
       self := {| ssl_bind_string :=
                    if Py.str_truthy (ssl_bind_value conf specs)
                    then Some (ssl_bind_value conf specs) else None;
                  ssl_updated :=
                    ssl_changed (ca_certs conf)
                      (certs_after_leaf conf specs (cls_certs c))
                    || (ssl_changed (leaf_certs conf specs) (cls_certs c) || false);
                  routes_added := [];
                  require_default_route := false |};
       trace := ssl_events conf specs (cls_certs c) |}.
Proof. unfold after_ssl. rewrite config_ssl_run. reflexivity. Qed.

(** Comparing a list with what one comparison step just stored finds
    no change. *)
Lemma ssl_changed_settled (certs last : list Cert) :
  ssl_changed certs (if ssl_changed certs last then certs else last) = false.
Proof.
  destruct (ssl_changed certs last) eqn:E; [| exact E].
  unfold ssl_changed. rewrite PyFacts.set_eqb_refl. apply andb_false_r.
Qed.

Lemma ssl_changed_nil (last : list Cert) : ssl_changed [] last = false.
Proof. reflexivity. Qed.

(** The view of the instance after [_config_ssl] does not depend on
    the class attributes. *)
Lemma after_ssl_view (c c' : ClassState) :
  view (after_ssl conf specs c) = view (after_ssl conf specs c').
Proof. rewrite !after_ssl_eq. reflexivity. Qed.

End CertificateAggregatorFacts.

(** ** The section builders *)

Create HintDb builders.

Section BuilderFacts.
Context `{Helpers}.

Lemma builder_ret {A : Type} (a : A) : builder (ret a).
Proof. intros st1 st2 Hv. unfold ret. simpl. repeat split; auto. Qed.

Lemma builder_bind {A B : Type} (m : M A) (k : A -> M B) :
  builder m -> (forall a, builder (k a)) -> builder (bind m k).
Proof.
  intros Hm Hk st1 st2 Hv. unfold bind.
  destruct (Hm st1 st2 Hv) as (Ha & Hv' & Hc & Ht & Hu & Hb).
  destruct (m st1) as [a1 s1], (m st2) as [a2 s2]. simpl in *. subst a2.
  destruct (Hk a1 s1 s2 Hv') as (Hr & Hv2 & Hc2 & Ht2 & Hu2 & Hb2).
  repeat split; try assumption; congruence.
Qed.

Lemma builder_gets_bind_string : builder (gets (fun st => ssl_bind_string (self st))).
Proof.
  intros st1 st2 Hv. unfold gets, view in *. simpl.
  repeat split; congruence.
Qed.

Lemma builder_gets_routes_added : builder (gets (fun st => routes_added (self st))).
Proof.
  intros st1 st2 Hv. unfold gets, view in *. simpl.
  repeat split; congruence.
Qed.

Lemma builder_gets_required :
  builder (gets (fun st => require_default_route (self st))).
Proof.
  intros st1 st2 Hv. unfold gets, view in *. simpl.
  repeat split; congruence.
Qed.

Lemma builder_set_routes_added (v : list Route) : builder (set_routes_added v).
Proof.
  intros st1 st2 Hv. unfold set_routes_added, modify_self, view in *. simpl.
  repeat split; congruence.
Qed.

Lemma builder_set_required (v : bool) : builder (set_require_default_route v).
Proof.
  intros st1 st2 Hv. unfold set_require_default_route, modify_self, view in *.
  simpl. repeat split; congruence.
Qed.

#[local] Hint Resolve builder_ret builder_gets_bind_string builder_gets_routes_added
  builder_gets_required builder_set_routes_added builder_set_required : builders.

Ltac builder_steps :=
  repeat first
    [ apply builder_bind; [| intros ?]
    | solve [auto with builders]
    | match goal with
      | |- builder (let (_, _) := ?p in _) => destruct p
      | |- builder (if ?b then _ else _) => destruct b
      end ].

Variable conf : Config.
Variable specs : Specs.

Lemma builder_get_tcp_section (details : Details) (aliases : list string)
    (tcp_port : string) :
  builder (get_tcp_section conf specs details aliases tcp_port).
Proof. unfold get_tcp_section. builder_steps. Qed.

Lemma builder_tcp_loop (details : Details) (aliases ports : list string)
    (cfg : OrderedDict.t) :
  builder (tcp_loop conf specs details aliases ports cfg).
Proof.
  revert cfg. induction ports as [| p ports IH]; intros cfg; simpl.
  - apply builder_ret.
  - apply builder_bind; [apply builder_get_tcp_section | intros r; apply IH].
Qed.

Lemma builder_tcp_sections : builder (_config_tcp_sections conf specs).
Proof.
  unfold _config_tcp_sections.
  destruct (negb _); [apply builder_ret | apply builder_tcp_loop].
Qed.

Lemma builder_frontend_sections : builder (_config_frontend_sections specs).
Proof. unfold _config_frontend_sections. builder_steps. Qed.

Lemma builder_backend_sections : builder (_config_backend_sections specs).
Proof. unfold _config_backend_sections. builder_steps. Qed.

Lemma builder_build_cfg_dict : builder (build_cfg_dict conf specs).
Proof.
  unfold build_cfg_dict.
  apply builder_bind; [apply builder_tcp_sections | intros tcp].
  apply builder_bind; [apply builder_frontend_sections | intros fe].
  apply builder_bind; [apply builder_backend_sections | intros be].
  apply builder_ret.
Qed.

(** The document of a cycle is a function of settings and topology:
    the class attributes left by earlier cycles do not enter it. *)
Lemma cycle_cfg_dict_indep (c c' : ClassState) :
  cycle_cfg_dict conf specs c = cycle_cfg_dict conf specs c'.
Proof.
  unfold cycle_cfg_dict.
  apply (builder_build_cfg_dict _ _ (after_ssl_view conf specs c c')).
Qed.

Lemma cycle_text_indep (c c' : ClassState) :
  cycle_text conf specs c = cycle_text conf specs c'.
Proof. unfold cycle_text. now rewrite (cycle_cfg_dict_indep c c'). Qed.

(** The builders leave class attributes, trace and [ssl_updated] alone. *)
Lemma before_apply_frame (c : ClassState) :
  cls (before_apply conf specs c) = cls (after_ssl conf specs c)
  /\ trace (before_apply conf specs c) = trace (after_ssl conf specs c)
  /\ ssl_updated (self (before_apply conf specs c))
     = ssl_updated (self (after_ssl conf specs c)).
Proof.
  unfold before_apply.
  destruct (builder_build_cfg_dict (after_ssl conf specs c) (after_ssl conf specs c)
              eq_refl) as (_ & _ & Hc & Ht & Hu & _).
  auto.
Qed.

(** [update] is [_update_haproxy] run on the text of the cycle. *)
Lemma cycle_unfold (w : World) (c : ClassState) :
  cycle conf specs w c
  = snd (_update_haproxy conf w (cycle_text conf specs c) (before_apply conf specs c)).
Proof.
  unfold cycle, update, bind, cycle_text, cycle_cfg_dict, before_apply, after_ssl.
  destruct (_config_ssl conf specs (start c)) as [[] s1]. simpl.
  destruct (build_cfg_dict conf specs s1) as [d s2]. reflexivity.
Qed.

End BuilderFacts.

(** ** The change detector *)

Section ChangeDetectorFacts.
Context `{Helpers}.
Variable conf : Config.

Lemma cfg_eqb_true (last : option string) (cfg : string) :
  match last with Some c => String.eqb c cfg | None => false end = true
  <-> last = Some cfg.
Proof.
  destruct last as [c |]; split; intros E; try discriminate.
  - apply String.eqb_eq in E. now subst.
  - injection E as ->. apply String.eqb_refl.
Qed.

Lemma cfg_eqb_false (last : option string) (cfg : string) :
  match last with Some c => String.eqb c cfg | None => false end = false
  <-> last <> Some cfg.
Proof.
  rewrite <- cfg_eqb_true.
  destruct (match last with Some c => String.eqb c cfg | None => false end);
    split; congruence.
Qed.

(** Text differs from [cls_cfg]. *)
Lemma update_haproxy_changed (w : World) (cfg : string) (st : State) :
  api_mode conf = true ->
  cls_cfg (cls st) <> Some cfg ->
  snd (_update_haproxy conf w cfg st)
  = {| cls := {| cls_cfg := Some cfg;
                 cls_process := if save_to_file_result w then run_reload_result w
                                else cls_process (cls st);
                 cls_certs := cls_certs (cls st) |};
       self := self st;
       trace := (trace st
                 ++ [Log ("HAProxy configuration:" ++ Py.newline ++ cfg);
                     SaveToFile (HAPROXY_CONFIG_FILE conf) cfg]
                 ++ (if save_to_file_result w
                     then [RunReload (cls_process (cls st))] else [])
                 ++ [Log "===========END==========="])%list |}.
Proof.
  intros Hapi Hne. apply cfg_eqb_false in Hne.
  destruct st as [[cfg0 proc0 certs0] slf tr]. simpl in Hne.
  unfold _update_haproxy. rewrite Hapi. run_monad. rewrite Hne. simpl.
  destruct (save_to_file_result w); simpl;
    rewrite <- ?app_assoc; reflexivity.
Qed.

(** Text equals [cls_cfg], certificates changed. *)
Lemma update_haproxy_certs (w : World) (cfg : string) (st : State) :
  api_mode conf = true ->
  cls_cfg (cls st) = Some cfg ->
  ssl_updated (self st) = true ->
  snd (_update_haproxy conf w cfg st)
  = {| cls := {| cls_cfg := Some cfg;
                 cls_process := run_reload_result w;
                 cls_certs := cls_certs (cls st) |};
       self := self st;
       trace := (trace st
                 ++ [Log "SSL certificates have been changed";
                     RunReload (cls_process (cls st));
                     Log "===========END==========="])%list |}.
Proof.
  intros Hapi Heq Hupd. pose proof (proj2 (cfg_eqb_true _ _) Heq) as Hb.
  destruct st as [[cfg0 proc0 certs0] slf tr]. simpl in *.
  unfold _update_haproxy. rewrite Hapi. run_monad. rewrite Hb, Hupd. simpl.
  subst cfg0. rewrite <- ?app_assoc. reflexivity.
Qed.

(** Text equals [cls_cfg], certificates as before. *)
Lemma update_haproxy_unchanged (w : World) (cfg : string) (st : State) :
  api_mode conf = true ->
  cls_cfg (cls st) = Some cfg ->
  ssl_updated (self st) = false ->
  snd (_update_haproxy conf w cfg st)
  = with_trace st
      (trace st ++ [Log "HAProxy configuration remains unchanged";
                    Log "===========END==========="])%list.
Proof.
  intros Hapi Heq Hupd. pose proof (proj2 (cfg_eqb_true _ _) Heq) as Hb.
  destruct st as [[cfg0 proc0 certs0] slf tr]. simpl in *.
  unfold _update_haproxy, with_trace. rewrite Hapi. run_monad.
  rewrite Hb, Hupd. simpl. rewrite <- ?app_assoc. reflexivity.
Qed.

(** Without the remote API nothing is compared. *)
Lemma update_haproxy_env (w : World) (cfg : string) (st : State) :
  api_mode conf = false ->
  snd (_update_haproxy conf w cfg st)
  = with_trace st
      (trace st ++ [Log ("HAProxy configuration:" ++ Py.newline ++ cfg);
                    SaveToFile (HAPROXY_CONFIG_FILE conf) cfg;
                    RunOnce])%list.
Proof.
  intros Hapi. destruct st as [c slf tr].
  unfold _update_haproxy, with_trace. rewrite Hapi. run_monad.
  rewrite <- ?app_assoc. reflexivity.
Qed.

(** The four cases of [_update_haproxy]. *)
Lemma update_haproxy_cases (cfg : string) (st : State) :
  api_mode conf = false
  \/ (api_mode conf = true /\ cls_cfg (cls st) <> Some cfg)
  \/ (api_mode conf = true /\ cls_cfg (cls st) = Some cfg
      /\ ssl_updated (self st) = true)
  \/ (api_mode conf = true /\ cls_cfg (cls st) = Some cfg
      /\ ssl_updated (self st) = false).
Proof.
  destruct (api_mode conf); [| now left]. right.
  destruct (match cls_cfg (cls st) with
            | Some c => String.eqb c cfg | None => false end) eqn:E.
  - apply cfg_eqb_true in E. destruct (ssl_updated (self st)); auto.
  - apply cfg_eqb_false in E. auto.
Qed.

(** The change detector never touches [cls_certs]. *)
Lemma update_haproxy_cls_certs (w : World) (cfg : string) (st : State) :
  cls_certs (cls (snd (_update_haproxy conf w cfg st))) = cls_certs (cls st).
Proof.
  destruct (update_haproxy_cases cfg st)
    as [Ha | [[Ha Hne] | [(Ha & He & Hu) | (Ha & He & Hu)]]].
  - now rewrite update_haproxy_env.
  - now rewrite update_haproxy_changed.
  - now rewrite update_haproxy_certs.
  - now rewrite update_haproxy_unchanged.
Qed.

(** Under the remote API the text of the cycle is in [cls_cfg] when
    the change detector returns. *)
Lemma update_haproxy_cls_cfg (w : World) (cfg : string) (st : State) :
  api_mode conf = true ->
  cls_cfg (cls (snd (_update_haproxy conf w cfg st))) = Some cfg.
Proof.
  intros Hapi.
  destruct (update_haproxy_cases cfg st)
    as [Ha | [[Ha Hne] | [(Ha & He & Hu) | (Ha & He & Hu)]]].
  - congruence.
  - now rewrite update_haproxy_changed.
  - now rewrite update_haproxy_certs.
  - now rewrite update_haproxy_unchanged.
Qed.

(** Without it [cls_cfg] is never assigned. *)
Lemma update_haproxy_env_cls (w : World) (cfg : string) (st : State) :
  api_mode conf = false ->
  cls (snd (_update_haproxy conf w cfg st)) = cls st.
Proof. intros Hapi. now rewrite update_haproxy_env. Qed.

Lemma cycle_cls_certs (specs : Specs) (w : World) (c : ClassState) :
  cls_certs (cls (cycle conf specs w c))
  = certs_after_ssl conf specs (cls_certs c).
Proof.
  rewrite cycle_unfold, update_haproxy_cls_certs.
  destruct (before_apply_frame conf specs c) as (Hc & _ & _).
  rewrite Hc, after_ssl_eq. reflexivity.
Qed.

Lemma cycle_cls_cfg (specs : Specs) (w : World) (c : ClassState) :
  api_mode conf = true ->
  cls_cfg (cls (cycle conf specs w c)) = Some (cycle_text conf specs c).
Proof. intros Hapi. rewrite cycle_unfold. now apply update_haproxy_cls_cfg. Qed.

(** Invariant of the class state: without the remote API no text is
    ever recorded. *)
Lemma reachable_env_cls_cfg (c : ClassState) :
  reachable conf c -> api_mode conf = false -> cls_cfg c = None.
Proof.
  intros Hr Hapi. induction Hr as [| specs w c Hr IH].
  - reflexivity.
  - rewrite cycle_unfold, update_haproxy_env_cls by exact Hapi.
    destruct (before_apply_frame conf specs c) as (Hc & _ & _).
    rewrite Hc, after_ssl_eq. simpl. exact IH.
Qed.

End ChangeDetectorFacts.

(** ** Idempotence of the cycle *)

Section Idempotence.
Context `{Helpers}.
Variable conf : Config.

(** Once a cycle has run, a comparison against the certificates of
    the same settings finds them settled, provided at most one of the
    two lists is in use. *)
Lemma certs_settled (specs : Specs) (last : list Cert) :
  leaf_certs conf specs = [] \/ ca_certs conf = [] ->
  let stored := certs_after_ssl conf specs last in
  ssl_changed (leaf_certs conf specs) stored = false
  /\ ssl_changed (ca_certs conf) (certs_after_leaf conf specs stored) = false.
Proof.
  intros [Hl | Hc]; unfold certs_after_ssl, certs_after_leaf; simpl.
  - rewrite Hl. simpl. split; [reflexivity | apply ssl_changed_settled].
  - rewrite Hc. simpl. split; [apply ssl_changed_settled | reflexivity].
Qed.

(** The CA list is settled after any cycle, whatever its topology. *)
Lemma ca_certs_settled (specs0 : Specs) (last : list Cert) :
  ssl_changed (ca_certs conf) (certs_after_ssl conf specs0 last) = false.
Proof. unfold certs_after_ssl. apply ssl_changed_settled. Qed.

(** With both lists in use and different, the CA comparison always
    finds a change: it looks at what the leaf comparison stored. *)
Lemma ca_compare_always_changed (specs : Specs) (last : list Cert) :
  Py.nonempty (leaf_certs conf specs) = true ->
  Py.nonempty (ca_certs conf) = true ->
  Py.set_eqb (ca_certs conf) (leaf_certs conf specs) = false ->
  ssl_changed (ca_certs conf) (certs_after_leaf conf specs last) = true.
Proof.
  intros Hl Hc Hne. unfold certs_after_leaf.
  destruct (ssl_changed (leaf_certs conf specs) last) eqn:E;
    unfold ssl_changed in *; rewrite Hc; simpl.
  - now rewrite Hne.
  - rewrite Hl in E. simpl in E. apply negb_false_iff in E.
    rewrite <- (PyFacts.set_eqb_congr _ _ (ca_certs conf) E).
    now rewrite Hne.
Qed.

End Idempotence.

(** C1 (as amended): under the remote API, and with at most one of the
    leaf-certificate list and the CA-certificate list in use, a second
    cycle over an unchanged topology computes the same text and takes the
    branch "configuration remains unchanged": it writes nothing and signals
    no reload. *)
Theorem update_twice_unchanged `{Helpers} (conf : Config) (specs : Specs)
    (w1 w2 : World) (c0 : ClassState) :
  api_mode conf = true ->
  leaf_certs conf specs = [] \/ ca_certs conf = [] ->
  second_run_unchanged conf specs w1 w2 c0.
Proof.
  intros Hapi Hcerts. unfold second_run_unchanged.
  set (c1 := cls (cycle conf specs w1 c0)).
  split; [apply cycle_text_indep |].
  destruct (before_apply_frame conf specs c1) as (Hc & Ht & Hu).
  assert (Hcerts1 : cls_certs c1 = certs_after_ssl conf specs (cls_certs c0))
    by apply cycle_cls_certs.
  destruct (certs_settled conf specs (cls_certs c0) Hcerts) as [Hleaf Hca].
  rewrite <- Hcerts1 in Hleaf, Hca.
  rewrite cycle_unfold, update_haproxy_unchanged.
  - unfold with_trace. simpl. rewrite Ht, after_ssl_eq. simpl.
    unfold ssl_events. now rewrite Hleaf, Hca.
  - exact Hapi.
  - rewrite Hc, after_ssl_eq. simpl.
    unfold c1. rewrite cycle_cls_cfg by exact Hapi.
    f_equal. apply cycle_text_indep.
  - rewrite Hu, after_ssl_eq. simpl. now rewrite Hleaf, Hca.
Qed.

Lemma update_twice_unchanged_witness :
  let conf := Sample.with_certs (Some "LEAF PEM") None Sample.conf_api in
  api_mode conf = true
  /\ ca_certs conf = []
  /\ second_run_unchanged (H := Sample.helpers) conf Sample.specs_plain
       Sample.world_ok Sample.world_ok class_init.
Proof.
  split; [reflexivity |]. split; [reflexivity |].
  apply update_twice_unchanged.
  - reflexivity.
  - right. reflexivity.
Defined.

(** C1 (counterexamples): the second run is not always the quiet one.
    Without the remote API every run writes the file and launches the
    balancer; under the API, with a leaf and a CA certificate both set,
    every run signals a reload. *)
Lemma update_twice_not_always_unchanged :
  ~ second_run_unchanged (H := Sample.helpers) Sample.conf_env
      Sample.specs_plain Sample.world_ok Sample.world_ok class_init
  /\ ~ second_run_unchanged (H := Sample.helpers)
         (Sample.with_certs (Some "LEAF PEM") (Some "CA PEM") Sample.conf_api)
         Sample.specs_plain Sample.world_ok Sample.world_ok class_init.
Proof.
  split; intros [_ Ht]; vm_compute in Ht; discriminate Ht.
Qed.

(** ** Commit of the new text *)

(** C2 (as amended): under the remote API, when the new text differs
    from the last applied one, the change detector stores the new text in
    [Haproxy.cls_cfg] whatever [save_to_file] returns.  A failed write only
    suppresses the reload and leaves [cls_process] as it was, so a later
    cycle with the same text finds it unchanged and does not write again. *)
Theorem changed_text_is_committed_whatever_the_write `{Helpers} (conf : Config)
    (w : World) (cfg : string) (st : State) :
  api_mode conf = true ->
  cls_cfg (cls st) <> Some cfg ->
  let st' := snd (_update_haproxy conf w cfg st) in
  cls_cfg (cls st') = Some cfg
  /\ cls_process (cls st')
     = (if save_to_file_result w then run_reload_result w else cls_process (cls st))
  /\ trace st'
     = (trace st
        ++ [Log ("HAProxy configuration:" ++ Py.newline ++ cfg);
            SaveToFile (HAPROXY_CONFIG_FILE conf) cfg]
        ++ (if save_to_file_result w then [RunReload (cls_process (cls st))] else [])
        ++ [Log "===========END==========="])%list
  /\ (forall (w2 : World) (st2 : State),
        cls st2 = cls st' ->
        ssl_updated (self st2) = false ->
        trace (snd (_update_haproxy conf w2 cfg st2))
        = (trace st2 ++ [Log "HAProxy configuration remains unchanged";
                         Log "===========END==========="])%list).
Proof.
  intros Hapi Hne st'. subst st'.
  rewrite update_haproxy_changed by assumption. simpl.
  repeat split.
  intros w2 st2 Hcls Hupd.
  rewrite update_haproxy_unchanged; try assumption.
  - reflexivity.
  - rewrite Hcls. reflexivity.
Qed.

Lemma changed_text_is_committed_whatever_the_write_witness :
  let st := @start Sample.helpers
              {| cls_cfg := Some "old text"; cls_process := Some 17;
                 cls_certs := [] |} in
  let st' := snd (_update_haproxy Sample.conf_api Sample.world_write_fails
                    "new text" st) in
  api_mode Sample.conf_api = true
  /\ cls_cfg (cls st) <> Some "new text"
  /\ cls_cfg (cls st') = Some "new text"
  /\ cls_process (cls st') = Some 17.
Proof.
  split; [reflexivity |]. split; [discriminate |].
  pose proof (changed_text_is_committed_whatever_the_write
                (H := Sample.helpers) Sample.conf_api Sample.world_write_fails
                "new text"
                (start {| cls_cfg := Some "old text"; cls_process := Some 17;
                          cls_certs := [] |})
                eq_refl
                ltac:(discriminate)) as (Hcfg & Hproc & _).
  split; [exact Hcfg | exact Hproc].
Defined.

(** C2 (counterexample): the write of the text "new text" fails, and
    [cls_cfg] holds it all the same: the text applied before, "old text",
    is gone from the state. *)
Lemma failed_write_loses_previous_text :
  let st := @start Sample.helpers
              {| cls_cfg := Some "old text"; cls_process := Some 17;
                 cls_certs := [] |} in
  let st' := snd (_update_haproxy Sample.conf_api Sample.world_write_fails
                    "new text" st) in
  save_to_file_result Sample.world_write_fails = false
  /\ In (SaveToFile "/haproxy.cfg" "new text") (trace st')
  /\ cls_cfg (cls st') = Some "new text"
  /\ cls_cfg (cls st') <> cls_cfg (cls st).
Proof.
  vm_compute. repeat split; try reflexivity.
  - right. left. reflexivity.
  - discriminate.
Qed.

(** ** Certificate comparison *)

(** C3 (the code at the failing input): with a leaf certificate and a
    CA certificate both set, the CA comparison reads and overwrites
    [Haproxy.cls_certs], the attribute of the leaf comparison.  From
    whatever state the cycle starts, [_config_ssl] reports a certificate
    change, rewrites the CA certificate and leaves the CA list in
    [cls_certs]; the next cycle therefore finds the leaf list changed. *)
Theorem leaf_and_ca_cert_change_every_cycle (c : ClassState) :
  let conf := Sample.with_certs (Some "LEAF PEM") (Some "CA PEM") Sample.conf_api in
  let st := after_ssl (H := Sample.helpers) conf Sample.specs_plain c in
  ssl_updated (self st) = true
  /\ cls_certs (cls st) = ["CA PEM"]
  /\ In (SaveCerts "/cacerts/" ["CA PEM"]) (trace st)
  /\ ssl_changed (leaf_certs conf Sample.specs_plain) (cls_certs (cls st)) = true.
Proof.
  intros conf st. subst st.
  assert (Hchg : ssl_changed (ca_certs conf)
                   (certs_after_leaf conf Sample.specs_plain (cls_certs c)) = true).
  { apply ca_compare_always_changed; reflexivity. }
  rewrite after_ssl_eq. simpl trace. simpl cls. simpl self.
  unfold certs_after_ssl, ssl_events. rewrite Hchg.
  repeat split.
  - apply in_or_app. right. left. reflexivity.
Qed.

(** Two cycles in a row from the initial class state, same settings,
    same topology: the second one saves both certificate sets again and
    signals a reload. *)
Example leaf_and_ca_second_cycle_trace :
  let conf := Sample.with_certs (Some "LEAF PEM") (Some "CA PEM") Sample.conf_api in
  let c1 := cls (cycle (H := Sample.helpers) conf Sample.specs_plain
                   Sample.world_ok class_init) in
  trace (cycle conf Sample.specs_plain Sample.world_ok c1)
  = [SaveCerts "/certs/" ["LEAF PEM"];
     Log "SSL certificates are updated";
     SaveCerts "/cacerts/" ["CA PEM"];
     Log "SSL CA certificates are updated";
     Log "SSL certificates have been changed";
     RunReload (Some 4711);
     Log "===========END==========="].
Proof. vm_compute. reflexivity. Qed.

(** ** Reload on a certificate change *)

Section TraceFacts.
Context `{Helpers}.
Variable conf : Config.
Variable specs : Specs.

Lemma ssl_events_no_save_to_file (last : list Cert) (name text : string) :
  ~ In (SaveToFile name text) (ssl_events conf specs last).
Proof.
  unfold ssl_events. intros Hin. apply in_app_or in Hin.
  destruct Hin as [Hin | Hin];
    match type of Hin with
    | In _ (if ?b then _ else _) => destruct b
    end; simpl in Hin; intuition discriminate.
Qed.

Lemma ssl_events_settled (last : list Cert) :
  ssl_changed (leaf_certs conf specs) last = false ->
  ssl_changed (ca_certs conf) (certs_after_leaf conf specs last) = false ->
  ssl_events conf specs last = [].
Proof. intros Hl Hc. unfold ssl_events. now rewrite Hl, Hc. Qed.

End TraceFacts.

(** C4: in every cycle whose text equals the last applied text
    ([Haproxy.cls_cfg]) while [_config_ssl] has set [ssl_updated], a reload
    is signalled and the configuration file is not written.  The class
    state is any state the program can reach; the certificate files are the
    only files saved. *)
Theorem cert_change_reloads_without_rewrite `{Helpers} (conf : Config)
    (specs : Specs) (w : World) (c : ClassState) :
  reachable conf c ->
  cls_cfg c = Some (cycle_text conf specs c) ->
  ssl_updated (self (after_ssl conf specs c)) = true ->
  let st' := cycle conf specs w c in
  trace st'
  = (ssl_events conf specs (cls_certs c)
     ++ [Log "SSL certificates have been changed";
         RunReload (cls_process c);
         Log "===========END==========="])%list
  /\ In (RunReload (cls_process c)) (trace st')
  /\ (forall name text, ~ In (SaveToFile name text) (trace st'))
  /\ cls_cfg (cls st') = cls_cfg c.
Proof.
  intros Hreach Hcfg Hupd st'.
  assert (Hapi : api_mode conf = true).
  { destruct (api_mode conf) eqn:E; [reflexivity |].
    rewrite (reachable_env_cls_cfg conf c Hreach E) in Hcfg. discriminate. }
  destruct (before_apply_frame conf specs c) as (Hc & Ht & Hu).
  assert (Hrun : st'
                 = {| cls := {| cls_cfg := Some (cycle_text conf specs c);
                                cls_process := run_reload_result w;
                                cls_certs := cls_certs (cls (before_apply conf specs c)) |};
                      self := self (before_apply conf specs c);
                      trace := (trace (before_apply conf specs c)
                                ++ [Log "SSL certificates have been changed";
                                    RunReload (cls_process (cls (before_apply conf specs c)));
                                    Log "===========END==========="])%list |}).
  { subst st'. rewrite cycle_unfold. apply update_haproxy_certs.
    - exact Hapi.
    - rewrite Hc, after_ssl_eq. exact Hcfg.
    - rewrite Hu. exact Hupd. }
  assert (Htrace : trace st'
                   = (ssl_events conf specs (cls_certs c)
                      ++ [Log "SSL certificates have been changed";
                          RunReload (cls_process c);
                          Log "===========END==========="])%list).
  { rewrite Hrun. simpl. rewrite Ht, Hc, after_ssl_eq. reflexivity. }
  split; [exact Htrace |]. split; [| split].
  - rewrite Htrace. apply in_or_app. right. right. left. reflexivity.
  - intros name text Hin. rewrite Htrace in Hin. apply in_app_or in Hin.
    destruct Hin as [Hin | Hin].
    + exact (ssl_events_no_save_to_file conf specs _ _ _ Hin).
    + simpl in Hin. intuition discriminate.
  - rewrite Hrun. simpl. now rewrite Hcfg.
Qed.

Lemma cert_change_reloads_without_rewrite_witness :
  let c1 := cls (cycle (H := Sample.helpers) Sample.conf_api
                   (Sample.specs_plain_cert "PEM A") Sample.world_ok class_init) in
  let st' := cycle Sample.conf_api (Sample.specs_plain_cert "PEM B")
               Sample.world_ok c1 in
  In (RunReload (Some 4711)) (trace st')
  /\ (forall name text, ~ In (SaveToFile name text) (trace st')).
Proof.
  pose proof (cert_change_reloads_without_rewrite (H := Sample.helpers)
                Sample.conf_api (Sample.specs_plain_cert "PEM B") Sample.world_ok
                (cls (cycle Sample.conf_api (Sample.specs_plain_cert "PEM A")
                        Sample.world_ok class_init))
                (reach_cycle Sample.conf_api (Sample.specs_plain_cert "PEM A")
                   Sample.world_ok class_init (reach_init Sample.conf_api))
                eq_refl eq_refl) as (_ & Hreload & Hnowrite & _).
  split; [exact Hreload | exact Hnowrite].
Defined.

(** ** An empty leaf-certificate list *)

(** C10: when the leaf-certificate list of a cycle is empty,
    [_config_ssl_certs] compares nothing: it returns the empty string and
    leaves the whole state, [Haproxy.cls_certs], [ssl_updated] and the trace
    included, as it found it.  So in a cycle that follows any other cycle of
    the process (whatever certificates that one had) [ssl_updated] stays
    false, [cls_certs] keeps the earlier set, no certificate is saved and
    the branch "SSL certificates have been changed" is not taken. *)
Theorem empty_leaf_list_is_not_compared `{Helpers} (conf : Config) (specs : Specs) :
  leaf_certs conf specs = [] ->
  (forall st : State, _config_ssl_certs conf specs st = ("", st))
  /\ (forall (specs0 : Specs) (w0 w : World) (c0 : ClassState),
        let c1 := cls (cycle conf specs0 w0 c0) in
        let st' := cycle conf specs w c1 in
        ssl_updated (self (after_ssl conf specs c1)) = false
        /\ cls_certs (cls st') = cls_certs c1
        /\ (forall dir certs, ~ In (SaveCerts dir certs) (trace st'))
        /\ ~ In (Log "SSL certificates have been changed") (trace st')).
Proof.
  intros Hempty. split.
  - intros st. unfold _config_ssl_certs. rewrite Hempty. reflexivity.
  - intros specs0 w0 w c0 c1 st'.
    assert (Hleaf : forall last, ssl_changed (leaf_certs conf specs) last = false).
    { intros last. rewrite Hempty. reflexivity. }
    assert (Hafter : forall last, certs_after_leaf conf specs last = last).
    { intros last. unfold certs_after_leaf. now rewrite Hleaf. }
    assert (Hca : ssl_changed (ca_certs conf) (cls_certs c1) = false).
    { unfold c1. rewrite cycle_cls_certs. apply ca_certs_settled. }
    assert (Hupd : ssl_updated (self (after_ssl conf specs c1)) = false).
    { rewrite after_ssl_eq. simpl. now rewrite Hafter, Hca, Hleaf. }
    assert (Hev : ssl_events conf specs (cls_certs c1) = []).
    { apply ssl_events_settled; [apply Hleaf | now rewrite Hafter]. }
    destruct (before_apply_frame conf specs c1) as (Hc & Ht & Hu).
    rewrite after_ssl_eq in Ht. simpl in Ht. rewrite Hev in Ht.
    rewrite Hupd in Hu.
    split; [exact Hupd |]. split.
    { unfold st'. rewrite cycle_cls_certs. unfold certs_after_ssl.
      now rewrite Hafter, Hca. }
    assert (Hcases :
              trace st' = [Log ("HAProxy configuration:" ++ Py.newline
                                  ++ cycle_text conf specs c1);
                           SaveToFile (HAPROXY_CONFIG_FILE conf)
                             (cycle_text conf specs c1);
                           RunOnce]
              \/ trace st'
                 = ([Log ("HAProxy configuration:" ++ Py.newline
                            ++ cycle_text conf specs c1);
                     SaveToFile (HAPROXY_CONFIG_FILE conf) (cycle_text conf specs c1)]
                    ++ (if save_to_file_result w
                        then [RunReload (cls_process (cls (before_apply conf specs c1)))]
                        else [])
                    ++ [Log "===========END==========="])%list
              \/ trace st' = [Log "HAProxy configuration remains unchanged";
                              Log "===========END==========="]).
    { unfold st'. rewrite cycle_unfold.
      destruct (update_haproxy_cases conf (cycle_text conf specs c1)
                  (before_apply conf specs c1))
        as [Ha | [[Ha Hne] | [(Ha & He & Hu') | (Ha & He & Hu')]]].
      - left. rewrite update_haproxy_env by exact Ha.
        unfold with_trace. simpl. now rewrite Ht.
      - right. left. rewrite update_haproxy_changed by assumption.
        simpl. now rewrite Ht.
      - congruence.
      - right. right. rewrite update_haproxy_unchanged by assumption.
        unfold with_trace. simpl. now rewrite Ht. }
    split.
    + intros dir certs Hin.
      destruct Hcases as [E | [E | E]]; rewrite E in Hin; simpl in Hin.
      * intuition discriminate.
      * destruct (save_to_file_result w); simpl in Hin; intuition discriminate.
      * intuition discriminate.
    + intros Hin.
      destruct Hcases as [E | [E | E]]; rewrite E in Hin; simpl in Hin.
      * intuition discriminate.
      * destruct (save_to_file_result w); simpl in Hin; intuition discriminate.
      * intuition discriminate.
Qed.

Lemma empty_leaf_list_is_not_compared_witness :
  let c1 := cls (cycle (H := Sample.helpers) Sample.conf_api
                   (Sample.specs_plain_cert "PEM A") Sample.world_ok class_init) in
  leaf_certs (H := Sample.helpers) Sample.conf_api Sample.specs_plain = []
  /\ cls_certs c1 = ["PEM A"]
  /\ ssl_updated (self (after_ssl Sample.conf_api Sample.specs_plain c1)) = false
  /\ cls_certs (cls (cycle Sample.conf_api Sample.specs_plain Sample.world_ok c1))
     = ["PEM A"].
Proof.
  split; [reflexivity |]. split; [reflexivity |].
  pose proof (proj2 (empty_leaf_list_is_not_compared (H := Sample.helpers)
                       Sample.conf_api Sample.specs_plain eq_refl)
                (Sample.specs_plain_cert "PEM A") Sample.world_ok Sample.world_ok
                class_init) as (Hupd & Hcerts & _).
  split; [exact Hupd | exact Hcerts].
Defined.

(** ** The userlist section *)

(** C9: for the basic-auth string [alice:secret,bob:pw\,2] the userlist
    section holds exactly two user statements, alice with password
    [secret] and bob with password [pw,2]: the escaped comma is decoded and
    does not split the entry. *)
Theorem userlist_alice_bob :
  _config_userlist_section (Some "alice:secret,bob:pw\,2")
  = [("userlist haproxy_userlist",
      ["user alice insecure-password secret";
       "user bob insecure-password pw,2"])].
Proof. vm_compute. reflexivity. Qed.

(** The regular expression splits at the first comma only. *)
Example userlist_split_alice_bob :
  Py.re_split_unescaped_comma false "alice:secret,bob:pw\,2"
  = ["alice:secret"; "bob:pw\,2"].
Proof. reflexivity. Qed.

(** ** Sections of the document *)

Section SectionFacts.
Context `{Helpers}.
Variable conf : Config.
Variable specs : Specs.

(** [get_tcp_section] stores what [get_tcp_routes] reports for its
    port: the value left by the port before is dropped. *)
Lemma tcp_section_routes_added (details : Details) (aliases : list string)
    (tcp_port : string) (st : State) :
  routes_added (self (snd (get_tcp_section conf specs details aliases tcp_port st)))
  = snd (get_tcp_routes details (get_routes specs) tcp_port
           (snd (parse_port_string tcp_port (ssl_bind_string (self st))))).
Proof.
  unfold get_tcp_section. run_monad.
  destruct (parse_port_string tcp_port (ssl_bind_string (self st))) as [e n].
  simpl. destruct (get_tcp_routes details (get_routes specs) tcp_port n).
  reflexivity.
Qed.

Lemma tcp_section_name (details : Details) (aliases : list string)
    (tcp_port : string) (st : State) :
  snd (fst (get_tcp_section conf specs details aliases tcp_port st))
  = snd (parse_port_string tcp_port (ssl_bind_string (self st))).
Proof.
  unfold get_tcp_section. run_monad.
  destruct (parse_port_string tcp_port (ssl_bind_string (self st))) as [e n].
  simpl. destruct (get_tcp_routes details (get_routes specs) tcp_port n).
  reflexivity.
Qed.

Lemma tcp_section_required (details : Details) (aliases : list string)
    (tcp_port : string) (st : State) :
  require_default_route
    (self (snd (get_tcp_section conf specs details aliases tcp_port st)))
  = require_default_route (self st).
Proof.
  unfold get_tcp_section. run_monad.
  destruct (parse_port_string tcp_port (ssl_bind_string (self st))) as [e n].
  simpl. destruct (get_tcp_routes details (get_routes specs) tcp_port n).
  reflexivity.
Qed.

Lemma tcp_section_bind_string (details : Details) (aliases : list string)
    (tcp_port : string) (st : State) :
  ssl_bind_string (self (snd (get_tcp_section conf specs details aliases tcp_port st)))
  = ssl_bind_string (self st).
Proof.
  apply (builder_get_tcp_section conf specs details aliases tcp_port st st eq_refl).
Qed.

(** After the loop, [routes_added] is what the last port reported. *)
Lemma tcp_loop_routes_added_last (details : Details) (aliases ports : list string)
    (p : string) (cfg : OrderedDict.t) (st : State) :
  routes_added
    (self (snd (tcp_loop conf specs details aliases (ports ++ [p]) cfg st)))
  = snd (get_tcp_routes details (get_routes specs) p
           (snd (parse_port_string p (ssl_bind_string (self st))))).
Proof.
  revert cfg st. induction ports as [| q ports IH]; intros cfg st; simpl.
  - unfold bind.
    pose proof (tcp_section_routes_added details aliases p st) as Hra.
    destruct (get_tcp_section conf specs details aliases p st) as [r s1].
    exact Hra.
  - unfold bind.
    pose proof (tcp_section_bind_string details aliases q st) as Hb.
    destruct (get_tcp_section conf specs details aliases q st) as [r s1].
    simpl in Hb. rewrite <- Hb. apply IH.
Qed.

Lemma tcp_loop_required (details : Details) (aliases ports : list string)
    (cfg : OrderedDict.t) (st : State) :
  require_default_route
    (self (snd (tcp_loop conf specs details aliases ports cfg st)))
  = require_default_route (self st).
Proof.
  revert cfg st. induction ports as [| q ports IH]; intros cfg st; simpl.
  - reflexivity.
  - unfold bind.
    pose proof (tcp_section_required details aliases q st) as Hr.
    destruct (get_tcp_section conf specs details aliases q st) as [r s1].
    simpl in Hr. rewrite <- Hr. apply IH.
Qed.

(** Names assigned by the loop, in the order of the ports given. *)
Lemma tcp_loop_keys (details : Details) (aliases ports : list string)
    (cfg : OrderedDict.t) (st : State) :
  OrderedDict.keys (fst (tcp_loop conf specs details aliases ports cfg st))
  = fold_left OrderedDict.add_key
      (map (fun tcp_port =>
              "listen port_"
                ++ snd (parse_port_string tcp_port (ssl_bind_string (self st))))
         ports)
      (OrderedDict.keys cfg).
Proof.
  revert cfg st. induction ports as [| q ports IH]; intros cfg st; simpl.
  - reflexivity.
  - unfold bind.
    pose proof (tcp_section_bind_string details aliases q st) as Hb.
    pose proof (tcp_section_name details aliases q st) as Hn.
    destruct (get_tcp_section conf specs details aliases q st) as [r s1].
    simpl in Hb, Hn. rewrite IH, Hb, OrderedDictFacts.keys_set, Hn.
    reflexivity.
Qed.

Lemma tcp_sections_keys (st : State) :
  OrderedDict.keys (fst (_config_tcp_sections conf specs st))
  = OrderedDict.first_insertion_order (tcp_names specs (ssl_bind_string (self st))).
Proof.
  unfold _config_tcp_sections, tcp_names.
  destruct (negb _); [reflexivity |].
  apply tcp_loop_keys.
Qed.

Lemma after_tcp_required (c : ClassState) :
  require_default_route (self (after_tcp conf specs c)) = false.
Proof.
  unfold after_tcp, _config_tcp_sections.
  destruct (negb _); simpl.
  - rewrite after_ssl_eq. reflexivity.
  - rewrite tcp_loop_required, after_ssl_eq. reflexivity.
Qed.

(** The flag computed by [_config_frontend_sections]; the builder
    leaves [routes_added] as the TCP sections left it. *)
Lemma after_frontends_self (c : ClassState) :
  require_default_route (self (after_frontends conf specs c))
  = negb (Py.nonempty (get_vhosts specs))
    && check_require_default_route (get_routes specs)
         (routes_added (self (after_tcp conf specs c)))
  /\ routes_added (self (after_frontends conf specs c))
     = routes_added (self (after_tcp conf specs c)).
Proof.
  unfold after_frontends, _config_frontend_sections.
  pose proof (after_tcp_required c) as Hr.
  destruct (after_tcp conf specs c) as [cl [bs upd ra rdr] tr]. simpl in Hr.
  run_monad. destruct (Py.nonempty (get_vhosts specs)); simpl.
  - split; [exact Hr | reflexivity].
  - destruct (check_require_default_route (get_routes specs) ra);
      simpl; split; reflexivity.
Qed.

Lemma backend_sections_run (st : State) :
  _config_backend_sections specs st
  = (fold_left
       (backend_step specs (routes_added (self st)) (require_default_route (self st)))
       (backend_aliases specs) OrderedDict.empty,
     st).
Proof. reflexivity. Qed.

(** The document is the merge of the seven groups in the order of
    [update]. *)
Lemma cycle_cfg_dict_eq (c : ClassState) :
  cycle_cfg_dict conf specs c
  = OrderedDict.update
      (OrderedDict.update
         (OrderedDict.update
            (OrderedDict.update
               (OrderedDict.update
                  (OrderedDict.update
                     (OrderedDict.update OrderedDict.empty
                        (_config_global_section conf))
                     (_config_defaults_section conf))
                  (_config_stats_section conf))
               (_config_userlist_section (HTTP_BASIC_AUTH conf)))
            (tcp_sections conf specs c))
         (frontend_sections conf specs c))
      (backend_sections conf specs c).
Proof.
  unfold cycle_cfg_dict, build_cfg_dict, tcp_sections, frontend_sections,
    backend_sections, after_frontends, after_tcp, bind.
  destruct (_config_tcp_sections conf specs (after_ssl conf specs c)) as [tcp s1].
  simpl.
  destruct (_config_frontend_sections specs s1) as [fe s2]. reflexivity.
Qed.

Lemma backend_step_keys (added : list Route) (required : bool)
    (cfg : OrderedDict.t) (service_alias : option string) :
  OrderedDict.keys (backend_step specs added required cfg service_alias)
  = fold_left OrderedDict.add_key (backend_names specs required service_alias)
      (OrderedDict.keys cfg).
Proof.
  unfold backend_step, backend_names.
  destruct (alias_falsy service_alias).
  - destruct required; simpl; [apply OrderedDictFacts.keys_set | reflexivity].
  - destruct (get_service_attribute _ _ _); simpl;
      apply OrderedDictFacts.keys_set.
Qed.

Lemma backend_fold_keys (added : list Route) (required : bool)
    (aliases : list (option string)) (cfg : OrderedDict.t) :
  OrderedDict.keys (fold_left (backend_step specs added required) aliases cfg)
  = fold_left OrderedDict.add_key
      (flat_map (backend_names specs required) aliases) (OrderedDict.keys cfg).
Proof.
  revert cfg. induction aliases as [| a aliases IH]; intros cfg; simpl.
  - reflexivity.
  - rewrite IH, backend_step_keys, fold_left_app. reflexivity.
Qed.

Lemma service_name_not_default (a : string) :
  String.eqb "backend default_service" ("backend SERVICE_" ++ a) = false.
Proof. reflexivity. Qed.

Lemma backend_step_has_default (added : list Route) (required : bool)
    (cfg : OrderedDict.t) (service_alias : option string) :
  OrderedDict.has_key "backend default_service"
    (backend_step specs added required cfg service_alias)
  = writes_default specs required service_alias
    || OrderedDict.has_key "backend default_service" cfg.
Proof.
  unfold backend_step, writes_default.
  destruct (alias_falsy service_alias).
  - destruct required; simpl; [| reflexivity].
    now rewrite OrderedDictFacts.has_key_set.
  - destruct (get_service_attribute _ _ _);
      rewrite OrderedDictFacts.has_key_set; reflexivity.
Qed.

Lemma backend_fold_has_default (added : list Route) (required : bool)
    (aliases : list (option string)) (cfg : OrderedDict.t) :
  OrderedDict.has_key "backend default_service"
    (fold_left (backend_step specs added required) aliases cfg)
  = OrderedDict.has_key "backend default_service" cfg
    || existsb (writes_default specs required) aliases.
Proof.
  revert cfg. induction aliases as [| a aliases IH]; intros cfg; simpl.
  - now rewrite orb_false_r.
  - rewrite IH, backend_step_has_default.
    destruct (writes_default specs required a),
      (OrderedDict.has_key "backend default_service" cfg); reflexivity.
Qed.

(** A turn that does not assign [default_service] keeps its value. *)
Lemma backend_step_keeps_default (added : list Route) (required : bool)
    (cfg : OrderedDict.t) (service_alias : option string) :
  writes_default specs required service_alias = false ->
  OrderedDict.get "backend default_service"
    (backend_step specs added required cfg service_alias)
  = OrderedDict.get "backend default_service" cfg.
Proof.
  unfold backend_step, writes_default.
  destruct (alias_falsy service_alias).
  - intros ->. reflexivity.
  - destruct (get_service_attribute _ _ _); [| discriminate].
    intros _. rewrite OrderedDictFacts.get_set. reflexivity.
Qed.

(** The last turn that assigns [default_service] decides its value. *)
Lemma backend_fold_last_writer (added : list Route) (required : bool)
    (pre post : list (option string)) (a : option string) (cfg : OrderedDict.t) :
  writes_default specs required a = true ->
  (forall b, In b post -> writes_default specs required b = false) ->
  OrderedDict.get "backend default_service"
    (fold_left (backend_step specs added required) (pre ++ a :: post) cfg)
  = Some (get_backend_section (get_details specs) (get_routes specs)
            (get_vhosts specs) a added).
Proof.
  intros Ha Hpost. rewrite fold_left_app. simpl.
  set (d0 := fold_left (backend_step specs added required) pre cfg).
  assert (Hget : OrderedDict.get "backend default_service"
                   (backend_step specs added required d0 a)
                 = Some (get_backend_section (get_details specs) (get_routes specs)
                           (get_vhosts specs) a added)).
  { unfold backend_step. unfold writes_default in Ha.
    destruct (alias_falsy a).
    - rewrite Ha. apply OrderedDictFacts.get_set_same.
    - destruct (get_service_attribute _ _ _); [discriminate |].
      apply OrderedDictFacts.get_set_same. }
  revert Hget. generalize (backend_step specs added required d0 a) as d1.
  induction post as [| b post IH]; intros d1 Hget; simpl.
  - exact Hget.
  - apply IH.
    + intros x Hx. apply Hpost. now right.
    + rewrite backend_step_keeps_default; [exact Hget |].
      apply Hpost. now left.
Qed.

Lemma backend_sections_keys (c : ClassState) :
  OrderedDict.keys (backend_sections conf specs c)
  = OrderedDict.first_insertion_order
      (flat_map
         (backend_names specs
            (require_default_route (self (after_frontends conf specs c))))
         (backend_aliases specs)).
Proof.
  unfold backend_sections. rewrite backend_sections_run. simpl fst.
  apply backend_fold_keys.
Qed.

Lemma backend_sections_nodup (c : ClassState) :
  NoDup (OrderedDict.keys (backend_sections conf specs c)).
Proof.
  unfold backend_sections. rewrite backend_sections_run. simpl.
  rewrite backend_fold_keys. apply OrderedDictFacts.nodup_fold_add_key.
  constructor.
Qed.

Lemma cycle_cfg_dict_nodup (c : ClassState) :
  NoDup (OrderedDict.keys (cycle_cfg_dict conf specs c)).
Proof.
  rewrite cycle_cfg_dict_eq.
  repeat apply OrderedDictFacts.nodup_keys_update. constructor.
Qed.

Lemma userlist_keys (basic_auth : option string) :
  OrderedDict.keys (_config_userlist_section basic_auth) = []
  \/ OrderedDict.keys (_config_userlist_section basic_auth)
     = ["userlist haproxy_userlist"].
Proof.
  unfold _config_userlist_section.
  destruct basic_auth as [s |]; [| now left].
  destruct (Py.truthy (Some s)); [| now left].
  destruct (Py.nonempty _); [now right | now left].
Qed.

Lemma userlist_has_no_default (basic_auth : option string) :
  OrderedDict.has_key "backend default_service" (_config_userlist_section basic_auth) = false.
Proof.
  unfold _config_userlist_section.
  destruct basic_auth as [s |]; [| reflexivity].
  destruct (Py.truthy (Some s)); [| reflexivity].
  destruct (Py.nonempty _); reflexivity.
Qed.

Lemma tcp_loop_has_no_default (details : Details) (aliases ports : list string)
    (cfg : OrderedDict.t) (st : State) :
  OrderedDict.has_key "backend default_service"
    (fst (tcp_loop conf specs details aliases ports cfg st))
  = OrderedDict.has_key "backend default_service" cfg.
Proof.
  revert cfg st. induction ports as [| q ports IH]; intros cfg st; simpl.
  - reflexivity.
  - unfold bind.
    destruct (get_tcp_section conf specs details aliases q st) as [r s1].
    rewrite IH, OrderedDictFacts.has_key_set. reflexivity.
Qed.

Lemma tcp_sections_have_no_default (c : ClassState) :
  OrderedDict.has_key "backend default_service" (tcp_sections conf specs c) = false.
Proof.
  unfold tcp_sections, _config_tcp_sections.
  destruct (negb _); [reflexivity |].
  now rewrite tcp_loop_has_no_default.
Qed.

End SectionFacts.

(** ** Order of the sections *)

(** C5 (as amended): the groups of sections always come in the policy
    order of [update] (global, defaults, stats, userlist, TCP listeners,
    frontends, backends), and the text is a function of settings and
    topology alone.  Inside a group the order is the iteration order of the
    input: TCP listeners follow the iteration of [set(tcp_ports)], backends
    follow the list of service aliases, each name placed where it is first
    assigned.  Nothing is sorted. *)
Theorem sections_follow_policy_and_iteration_order `{Helpers} (conf : Config)
    (specs : Specs) (c : ClassState) :
  OrderedDict.keys (cycle_cfg_dict conf specs c)
  = OrderedDict.first_insertion_order
      (["global"; "defaults"; "listen stats"]
       ++ OrderedDict.keys (_config_userlist_section (HTTP_BASIC_AUTH conf))
       ++ tcp_names specs (ssl_bind_string (self (after_ssl conf specs c)))
       ++ OrderedDict.keys (frontend_sections conf specs c)
       ++ flat_map
            (backend_names specs
               (require_default_route (self (after_frontends conf specs c))))
            (backend_aliases specs))%list
  /\ (forall c' : ClassState, cycle_text conf specs c' = cycle_text conf specs c).
Proof.
  split; [| intros c'; apply cycle_text_indep].
  rewrite cycle_cfg_dict_eq, !OrderedDictFacts.keys_update.
  rewrite backend_sections_keys.
  unfold tcp_sections. rewrite tcp_sections_keys.
  rewrite !OrderedDictFacts.fold_add_key_distinct.
  unfold OrderedDict.first_insertion_order.
  rewrite !fold_left_app. reflexivity.
Qed.

(** C5 (counterexample): two topologies that differ only in the order
    in which the service aliases are listed give different documents: the
    backend sections change places. *)
Lemma permuted_aliases_change_document :
  let doc1 := cycle_cfg_dict (H := Sample.helpers) Sample.conf_api
                (Sample.specs_vhosts ["WEB"; "API"]) class_init in
  let doc2 := cycle_cfg_dict (H := Sample.helpers) Sample.conf_api
                (Sample.specs_vhosts ["API"; "WEB"]) class_init in
  Permutation ["WEB"; "API"] ["API"; "WEB"]
  /\ OrderedDict.keys doc1
     = ["global"; "defaults"; "listen stats"; "frontend port_80";
        "backend SERVICE_WEB"; "backend SERVICE_API"]
  /\ OrderedDict.keys doc2
     = ["global"; "defaults"; "listen stats"; "frontend port_80";
        "backend SERVICE_API"; "backend SERVICE_WEB"]
  /\ cycle_text (H := Sample.helpers) Sample.conf_api
       (Sample.specs_vhosts ["WEB"; "API"]) class_init
     <> cycle_text (H := Sample.helpers) Sample.conf_api
          (Sample.specs_vhosts ["API"; "WEB"]) class_init.
Proof.
  split; [apply perm_swap |].
  split; [vm_compute; reflexivity |].
  split; [vm_compute; reflexivity |].
  intros Heq. apply String.eqb_eq in Heq.
  vm_compute in Heq. discriminate Heq.
Qed.

(** ** The default backend *)

Section DefaultBackendFacts.
Context `{Helpers}.
Variable conf : Config.
Variable specs : Specs.

Lemma truthy_some (a : string) : Py.truthy (Some a) = Py.str_truthy a.
Proof. destruct a; reflexivity. Qed.

(** Presence of [backend default_service] is decided by the backend
    loop, unless a frontend section took the name. *)
Lemma default_service_has_key (c : ClassState) :
  OrderedDict.has_key "backend default_service" (cycle_cfg_dict conf specs c)
  = OrderedDict.has_key "backend default_service" (frontend_sections conf specs c)
    || existsb
         (writes_default specs
            (require_default_route (self (after_frontends conf specs c))))
         (backend_aliases specs).
Proof.
  rewrite cycle_cfg_dict_eq, !OrderedDictFacts.has_key_update.
  rewrite userlist_has_no_default, tcp_sections_have_no_default.
  unfold backend_sections. rewrite backend_sections_run. simpl fst.
  rewrite backend_fold_has_default. reflexivity.
Qed.

(** The loop runs over real aliases only when virtual hosts exist. *)
Lemma backend_aliases_real (pre post : list (option string)) (a : string) :
  backend_aliases specs = (pre ++ Some a :: post)%list ->
  Py.nonempty (get_vhosts specs) = true.
Proof.
  unfold backend_aliases.
  destruct (Py.nonempty (get_vhosts specs)); [reflexivity |].
  simpl. intros Heq.
  destruct pre as [| x [| y pre]]; simpl in Heq; discriminate Heq.
Qed.

Lemma in_backend_aliases_real (a : string) :
  In (Some a) (backend_aliases specs) ->
  Py.nonempty (get_vhosts specs) = true.
Proof.
  intros Hin. apply in_split in Hin. destruct Hin as (pre & post & Heq).
  exact (backend_aliases_real pre post a Heq).
Qed.

End DefaultBackendFacts.

(** X20: in terms of the state of the cycle, a section
    [backend default_service] is in the document exactly when the flag
    [self.require_default_route] left by [_config_frontend_sections] is
    true, or the backend loop resolves a non-empty alias that lacks
    [virtual_host].  The flag is true when no virtual host is declared and
    the route check against [self.routes_added] asks for a default route.
    The frontend helpers, which are outside this module, are taken to name
    frontend sections only. *)
Theorem default_service_backend_iff `{Helpers} (conf : Config) (specs : Specs)
    (c : ClassState) :
  OrderedDict.has_key "backend default_service" (frontend_sections conf specs c)
  = false ->
  let required := require_default_route (self (after_frontends conf specs c)) in
  required
  = negb (Py.nonempty (get_vhosts specs))
    && check_require_default_route (get_routes specs)
         (routes_added (self (after_tcp conf specs c)))
  /\ (OrderedDict.has_key "backend default_service" (cycle_cfg_dict conf specs c)
      = true
      <-> required = true
          \/ exists a : string,
               In (Some a) (backend_aliases specs)
               /\ Py.str_truthy a = true
               /\ get_service_attribute (get_details specs) "virtual_host" (Some a)
                  = false).
Proof.
  intros Hfe required.
  destruct (after_frontends_self conf specs c) as [Hreq _].
  fold required in Hreq. split; [exact Hreq |].
  rewrite default_service_has_key, Hfe. simpl. fold required.
  rewrite existsb_exists. split.
  - intros [x [Hin Hw]]. unfold writes_default, alias_falsy in Hw.
    destruct x as [a |].
    + rewrite truthy_some in Hw. destruct (Py.str_truthy a) eqn:Ha; simpl in Hw.
      * right. exists a. repeat split; try assumption.
        now apply negb_true_iff in Hw.
      * now left.
    + simpl in Hw. now left.
  - intros [Hr | (a & Hin & Ha & Hvh)].
    + exists None. split.
      * rewrite Hr in Hreq. symmetry in Hreq. apply andb_true_iff in Hreq.
        destruct Hreq as [Hv _]. unfold backend_aliases. rewrite Hv. now left.
      * unfold writes_default. simpl. exact Hr.
    + exists (Some a). split; [exact Hin |].
      unfold writes_default, alias_falsy. rewrite truthy_some, Ha. simpl.
      now rewrite Hvh.
Qed.

Lemma default_service_backend_iff_witness :
  OrderedDict.has_key "backend default_service"
    (frontend_sections (H := Sample.helpers) Sample.conf_api Sample.specs_mixed
       class_init) = false
  /\ (OrderedDict.has_key "backend default_service"
        (cycle_cfg_dict (H := Sample.helpers) Sample.conf_api Sample.specs_mixed
           class_init) = true
      <-> require_default_route
            (self (after_frontends (H := Sample.helpers) Sample.conf_api
                     Sample.specs_mixed class_init)) = true
          \/ exists a : string,
               In (Some a) (backend_aliases (H := Sample.helpers) Sample.specs_mixed)
               /\ Py.str_truthy a = true
               /\ get_service_attribute (Helpers := Sample.helpers)
                    (get_details Sample.specs_mixed) "virtual_host" (Some a)
                  = false).
Proof.
  split; [reflexivity |].
  exact (proj2 (default_service_backend_iff (H := Sample.helpers) Sample.conf_api
                  Sample.specs_mixed class_init eq_refl)).
Defined.

(** C6 (the code at the failing input): two services behind TCP
    listeners on ports 80 and 5432, no virtual host.  Every route of the
    topology is consumed by a TCP section, and the backend loop resolves
    no real alias, only the pseudo-alias.  The document holds a section
    [backend default_service] all the same: [require_default_route] is
    computed from [routes_added], which holds the routes of the last port
    only. *)
Theorem default_service_emitted_with_every_route_consumed :
  let specs := Sample.specs_two_ports in
  let bind_opts :=
    ssl_bind_string (self (after_ssl (H := Sample.helpers) Sample.conf_api specs
                             class_init)) in
  let tcp := tcp_sections (H := Sample.helpers) Sample.conf_api specs class_init in
  Py.nonempty (get_vhosts specs) = false
  /\ backend_aliases specs = [None]
  /\ flat_map snd (get_routes specs) = [Sample.route_web; Sample.route_db]
  /\ flat_map
       (fun p => snd (get_tcp_routes (Helpers := Sample.helpers)
                        (get_details specs) (get_routes specs) p
                        (tcp_port_num (H := Sample.helpers) bind_opts p)))
       (tcp_tokens specs)
     = [Sample.route_web; Sample.route_db]
  /\ OrderedDict.get "listen port_80" tcp
     = Some ["bind :80"; "mode tcp"; Sample.server_line Sample.route_web]
  /\ OrderedDict.get "listen port_5432" tcp
     = Some ["bind :5432"; "mode tcp"; Sample.server_line Sample.route_db]
  /\ require_default_route
       (self (after_frontends (H := Sample.helpers) Sample.conf_api specs
                class_init)) = true
  /\ OrderedDict.has_key "backend default_service"
       (cycle_cfg_dict (H := Sample.helpers) Sample.conf_api specs class_init)
     = true.
Proof. vm_compute. repeat split. Qed.


(** For the aliases the backend loop runs over: the value under
    [backend default_service] is the section of the last real alias
    without [virtual_host], and the name occurs once in the document. *)
Lemma backend_last_writer_in_document `{Helpers} (conf : Config)
    (specs : Specs) (c : ClassState) (pre post : list (option string)) (a : string) :
  backend_aliases specs = (pre ++ Some a :: post)%list ->
  Py.str_truthy a = true ->
  get_service_attribute (get_details specs) "virtual_host" (Some a) = false ->
  (forall b : string,
     In (Some b) post ->
     Py.str_truthy b = true ->
     get_service_attribute (get_details specs) "virtual_host" (Some b) = true) ->
  OrderedDict.get "backend default_service" (cycle_cfg_dict conf specs c)
  = Some (get_backend_section (get_details specs) (get_routes specs)
            (get_vhosts specs) (Some a)
            (routes_added (self (after_frontends conf specs c))))
  /\ NoDup (OrderedDict.keys (cycle_cfg_dict conf specs c)).
Proof.
  intros Hsplit Ha Hvh Hpost. split; [| apply cycle_cfg_dict_nodup].
  pose proof (backend_aliases_real specs pre post a Hsplit) as Hvhosts.
  destruct (after_frontends_self conf specs c) as [Hreq _].
  rewrite Hvhosts in Hreq. simpl in Hreq.
  rewrite cycle_cfg_dict_eq.
  rewrite OrderedDictFacts.get_update by apply backend_sections_nodup.
  unfold backend_sections. rewrite backend_sections_run. simpl fst.
  rewrite Hsplit, Hreq.
  rewrite backend_fold_last_writer; [reflexivity | |].
  - unfold writes_default, alias_falsy. rewrite truthy_some, Ha. simpl.
    now rewrite Hvh.
  - intros b Hb. unfold writes_default, alias_falsy.
    destruct b as [b |]; [| reflexivity].
    rewrite truthy_some. destruct (Py.str_truthy b) eqn:Hbt; simpl.
    + now rewrite (Hpost b Hb Hbt).
    + reflexivity.
Qed.

(** C7 (as amended): when virtual hosts exist, the backend loop runs
    over the service aliases of the topology; the real aliases without
    [virtual_host] all assign the one key [backend default_service], and
    the document holds that name once, with the statements of the last
    such alias, the assignments of the earlier ones being replaced. *)
Theorem last_alias_without_virtual_host_wins `{Helpers} (conf : Config)
    (specs : Specs) (c : ClassState) (pre post : list string) (a : string) :
  Py.nonempty (get_vhosts specs) = true ->
  get_service_aliases specs = (pre ++ a :: post)%list ->
  Py.str_truthy a = true ->
  get_service_attribute (get_details specs) "virtual_host" (Some a) = false ->
  (forall b : string,
     In b post ->
     Py.str_truthy b = true ->
     get_service_attribute (get_details specs) "virtual_host" (Some b) = true) ->
  OrderedDict.get "backend default_service" (cycle_cfg_dict conf specs c)
  = Some (get_backend_section (get_details specs) (get_routes specs)
            (get_vhosts specs) (Some a)
            (routes_added (self (after_frontends conf specs c))))
  /\ NoDup (OrderedDict.keys (cycle_cfg_dict conf specs c)).
Proof.
  intros Hvhosts Haliases Ha Hvh Hpost.
  apply (backend_last_writer_in_document conf specs c (map Some pre) (map Some post) a).
  - unfold backend_aliases. rewrite Hvhosts, Haliases. simpl.
    now rewrite map_app.
  - exact Ha.
  - exact Hvh.
  - intros b Hb. apply in_map_iff in Hb. destruct Hb as (b' & Heq & Hb').
    injection Heq as ->. now apply Hpost.
Qed.

Lemma last_alias_without_virtual_host_wins_witness :
  Py.nonempty (get_vhosts (H := Sample.helpers) Sample.specs_mixed) = true
  /\ get_service_aliases (H := Sample.helpers) Sample.specs_mixed
     = ["WEB"; "API"; "DB"]
  /\ OrderedDict.get "backend default_service"
       (cycle_cfg_dict (H := Sample.helpers) Sample.conf_api Sample.specs_mixed
          class_init)
     = Some ["server DB_1 10.7.0.4:5432"].
Proof.
  split; [reflexivity |]. split; [reflexivity |].
  refine (proj1 (last_alias_without_virtual_host_wins (H := Sample.helpers)
                   Sample.conf_api Sample.specs_mixed class_init
                   ["WEB"; "API"] [] "DB" eq_refl eq_refl eq_refl eq_refl _)).
  intros b [].
Defined.

(** C7 (counterexample): two plain services, WEB and API, both without
    [virtual_host], and no virtual host in the topology.  The backend loop
    does not resolve them: it runs once, for no alias, and
    [backend default_service] holds the servers of both services, not the
    statements of the last alias alone. *)
Lemma plain_services_are_not_resolved_one_by_one :
  let specs := Scenario.specs_two_plain in
  let doc := cycle_cfg_dict (H := Sample.helpers) Sample.conf_api specs class_init in
  get_service_aliases specs = ["WEB"; "API"]
  /\ get_service_attribute (Helpers := Sample.helpers) (get_details specs)
       "virtual_host" (Some "WEB") = false
  /\ get_service_attribute (Helpers := Sample.helpers) (get_details specs)
       "virtual_host" (Some "API") = false
  /\ backend_aliases specs = [None]
  /\ OrderedDict.get "backend default_service" doc
     = Some ["server WEB_1 10.7.0.2:80"; "server API_1 10.7.0.3:8080"]
  /\ OrderedDict.get "backend default_service" doc
     <> Some (get_backend_section (Helpers := Sample.helpers) (get_details specs)
                (get_routes specs) (get_vhosts specs) (Some "API")
                (routes_added
                   (self (after_frontends (H := Sample.helpers) Sample.conf_api
                            specs class_init)))).
Proof.
  vm_compute. repeat split. discriminate.
Qed.

(** ** Bookkeeping of the routes taken by TCP listeners *)

(** With at least one port, [routes_added] after [_config_tcp_sections]
    is what [get_tcp_routes] reports for the port visited last. *)
Lemma routes_added_of_last_port `{Helpers} (conf : Config) (specs : Specs)
    (c : ClassState) (ports : list string) (p : string) :
  get_service_attribute (get_details specs) "tcp_ports" None = true ->
  set_iter (get_tcp_port_list (get_details specs) (get_service_aliases specs))
  = (ports ++ [p])%list ->
  routes_added (self (after_tcp conf specs c))
  = snd (get_tcp_routes (get_details specs) (get_routes specs) p
           (snd (parse_port_string p
                   (ssl_bind_string (self (after_ssl conf specs c)))))).
Proof.
  intros Htcp Hports. unfold after_tcp, _config_tcp_sections.
  rewrite Htcp, Hports. simpl. apply tcp_loop_routes_added_last.
Qed.

(** C8 (the code at the failing input): two services behind TCP
    listeners on ports 80 and 5432.  Both routes are emitted inside their
    listener, yet after the TCP sections [routes_added] holds the route of
    port 5432 only.  The route of port 80 counts as unassigned: a default
    route is required and the route is emitted again under
    [backend default_service]. *)
Theorem routes_added_holds_last_port_only :
  let tcp := tcp_sections (H := Sample.helpers) Sample.conf_api
               Sample.specs_two_ports class_init in
  let st := after_tcp (H := Sample.helpers) Sample.conf_api
              Sample.specs_two_ports class_init in
  OrderedDict.get "listen port_80" tcp
  = Some ["bind :80"; "mode tcp"; "server WEB_1 10.7.0.2:80"]
  /\ OrderedDict.get "listen port_5432" tcp
     = Some ["bind :5432"; "mode tcp"; "server DB_1 10.7.0.4:5432"]
  /\ routes_added (self st) = [Sample.route_db]
  /\ ~ In Sample.route_web (routes_added (self st))
  /\ require_default_route
       (self (after_frontends (H := Sample.helpers) Sample.conf_api
                Sample.specs_two_ports class_init)) = true
  /\ OrderedDict.get "backend default_service"
       (cycle_cfg_dict (H := Sample.helpers) Sample.conf_api
          Sample.specs_two_ports class_init)
     = Some ["server WEB_1 10.7.0.2:80"].
Proof.
  vm_compute. repeat split.
  intros [Heq | []]. discriminate Heq.
Qed.

(** * Further properties of the module *)

(** ** The basic-auth format and the userlist builder *)

Module BasicAuthFacts.
Import Py BasicAuth.

Lemma re_split_not_nil (b : bool) (s : string) :
  re_split_unescaped_comma b s <> [].
Proof.
  revert b. induction s as [| c s IH]; intros b; simpl.
  - discriminate.
  - destruct (Ascii.eqb c comma && negb b); [discriminate |].
    specialize (IH (Ascii.eqb c backslash)).
    destruct (re_split_unescaped_comma (Ascii.eqb c backslash) s);
      [congruence | discriminate].
Qed.

(** A prefix without unescaped comma stays in front of the first
    piece. *)
Lemma re_split_app (s rest : string) (b : bool) :
  unsplit b s ->
  re_split_unescaped_comma b (s ++ rest)
  = match re_split_unescaped_comma (ends_with_backslash b s) rest with
    | t :: ts => (s ++ t) :: ts
    | [] => []
    end.
Proof.
  revert b. induction s as [| c s IH]; intros b Hs; simpl.
  - destruct (re_split_unescaped_comma b rest) eqn:E; [| reflexivity].
    now apply re_split_not_nil in E.
  - destruct Hs as [Hc Hs]. rewrite Hc, (IH _ Hs).
    destruct (re_split_unescaped_comma _ rest) eqn:E; [| reflexivity].
    now apply re_split_not_nil in E.
Qed.

Lemma unsplit_app (s1 s2 : string) (b : bool) :
  unsplit b s1 -> unsplit (ends_with_backslash b s1) s2 -> unsplit b (s1 ++ s2).
Proof.
  revert b. induction s1 as [| c s1 IH]; intros b H1 H2; simpl in *.
  - exact H2.
  - destruct H1 as [Hc H1]. split; [exact Hc | now apply IH].
Qed.

Lemma unsplit_escape (s : string) (b : bool) : unsplit b (escape_commas s).
Proof.
  revert b. induction s as [| c s IH]; intros b; simpl.
  - exact I.
  - destruct (Ascii.eqb c comma) eqn:E; simpl.
    + repeat split; try reflexivity. apply IH.
    + rewrite E. split; [reflexivity | apply IH].
Qed.

Lemma ends_with_backslash_escape (s : string) (b : bool) :
  ends_with_backslash b (escape_commas s) = ends_with_backslash b s.
Proof.
  revert b. induction s as [| c s IH]; intros b; simpl.
  - reflexivity.
  - destruct (Ascii.eqb c comma) eqn:E; simpl.
    + apply Ascii.eqb_eq in E. subst c. apply IH.
    + apply IH.
Qed.

Lemma ends_with_backslash_app (s1 s2 : string) (b : bool) :
  ends_with_backslash b (s1 ++ s2)
  = ends_with_backslash (ends_with_backslash b s1) s2.
Proof.
  revert b. induction s1 as [| c s1 IH]; intros b; simpl; [reflexivity | apply IH].
Qed.

Lemma unsplit_entry (cred : string * string) (b : bool) :
  unsplit b (encode_entry cred).
Proof.
  unfold encode_entry. apply unsplit_app; [apply unsplit_escape |].
  simpl. split; [reflexivity | apply unsplit_escape].
Qed.

Lemma ends_with_backslash_entry (cred : string * string) (b : bool) :
  ends_with_backslash b (encode_entry cred)
  = ends_with_backslash false (snd cred).
Proof.
  unfold encode_entry. rewrite ends_with_backslash_app. simpl.
  apply ends_with_backslash_escape.
Qed.

Lemma append_empty_r (s : string) : (s ++ "")%string = s.
Proof. induction s as [| c s IH]; simpl; [reflexivity | now rewrite IH]. Qed.

Lemma re_split_entry_comma (cred : string * string) (rest : string) :
  ends_with_backslash false (snd cred) = false ->
  re_split_unescaped_comma false (encode_entry cred ++ String comma rest)
  = encode_entry cred :: re_split_unescaped_comma false rest.
Proof.
  intros Hcred. rewrite re_split_app by apply unsplit_entry.
  rewrite ends_with_backslash_entry, Hcred. simpl.
  now rewrite append_empty_r.
Qed.

(** The regular expression gives back the encoded entries. *)
Lemma re_split_encode (creds : list (string * string)) :
  creds <> [] ->
  Forall (fun cred => ends_with_backslash false (snd cred) = false) creds ->
  re_split_unescaped_comma false (encode creds) = map encode_entry creds.
Proof.
  unfold encode. induction creds as [| cred creds IH]; intros Hne Hall.
  - congruence.
  - inversion Hall as [| ? ? Hcred Hrest]; subst.
    destruct creds as [| cred2 creds].
    + simpl. rewrite <- (append_empty_r (encode_entry cred)) at 1.
      rewrite re_split_app by apply unsplit_entry.
      simpl. now rewrite append_empty_r.
    + change (String.concat "," (map encode_entry (cred :: cred2 :: creds)))
        with (encode_entry cred
                ++ String comma
                     (String.concat "," (map encode_entry (cred2 :: creds))))%string.
      rewrite (re_split_entry_comma cred _ Hcred).
      rewrite IH by (try discriminate; exact Hrest).
      reflexivity.
Qed.

Lemma escape_not_comma_first (s : string) (c : ascii) (t : string) :
  escape_commas s = String c t -> Ascii.eqb c comma = false.
Proof.
  destruct s as [| c' s]; simpl; [discriminate |].
  destruct (Ascii.eqb c' comma) eqn:E; intros Heq; injection Heq as <- _.
  - reflexivity.
  - exact E.
Qed.

(** Decoding undoes the escape. *)
Lemma replace_escape (s : string) : replace_escaped_comma (escape_commas s) = s.
Proof.
  induction s as [| c s IH]; [reflexivity |].
  cbn [escape_commas]. destruct (Ascii.eqb c comma) eqn:E.
  - apply Ascii.eqb_eq in E. subst c. cbn. now rewrite IH.
  - destruct (escape_commas s) as [| c2 t] eqn:Es.
    + destruct s as [| a s]; [reflexivity |].
      simpl in Es. destruct (Ascii.eqb a comma); discriminate.
    + change (replace_escaped_comma (String c (String c2 t)))
        with (if Ascii.eqb c backslash && Ascii.eqb c2 comma
              then String comma (replace_escaped_comma t)
              else String c (replace_escaped_comma (String c2 t))).
      rewrite (escape_not_comma_first s c2 t Es), andb_false_r.
      now rewrite IH.
Qed.

Lemma has_colon_escape (s : string) :
  has_char colon (escape_commas s) = has_char colon s.
Proof.
  induction s as [| c s IH]; simpl; [reflexivity |].
  destruct (Ascii.eqb c comma) eqn:E; simpl.
  - apply Ascii.eqb_eq in E. subst c. exact IH.
  - now rewrite IH.
Qed.

Lemma split_colon_app (s rest : string) :
  has_char colon s = false ->
  split_colon_1 (s ++ String colon rest) = [s; rest].
Proof.
  induction s as [| c s IH]; simpl; intros Hs.
  - reflexivity.
  - apply orb_false_iff in Hs. destruct Hs as [Hc Hs].
    rewrite Hc, (IH Hs). reflexivity.
Qed.

Lemma split_colon_none (s : string) :
  has_char colon s = false -> split_colon_1 s = [s].
Proof.
  induction s as [| c s IH]; simpl; intros Hs.
  - reflexivity.
  - apply orb_false_iff in Hs. destruct Hs as [Hc Hs].
    rewrite Hc, (IH Hs). reflexivity.
Qed.

Lemma entry_not_empty (cred : string * string) :
  str_truthy (encode_entry cred) = true.
Proof.
  unfold encode_entry. destruct (escape_commas (fst cred)); reflexivity.
Qed.

(** One encoded entry decodes to its statement. *)
Lemma userlist_entry_encode (cred : string * string) :
  representable cred = true ->
  userlist_entry (encode_entry cred) = [user_statement cred].
Proof.
  unfold representable. rewrite !andb_true_iff.
  intros [[Hcolon Hstrip] _].
  apply negb_true_iff in Hcolon. apply String.eqb_eq in Hstrip.
  unfold userlist_entry. rewrite Hstrip, entry_not_empty.
  unfold encode_entry.
  change (":" ++ escape_commas (snd cred))%string
    with (String colon (escape_commas (snd cred))).
  rewrite split_colon_app by now rewrite has_colon_escape.
  now rewrite !replace_escape.
Qed.

Lemma has_char_lstrip (c : ascii) (s : string) :
  has_char c s = false -> has_char c (lstrip s) = false.
Proof.
  induction s as [| c' s IH]; simpl; intros Hs; [reflexivity |].
  apply orb_false_iff in Hs. destruct Hs as [Hc Hs].
  destruct (is_space c'); [now apply IH | simpl; now rewrite Hc, Hs].
Qed.

Lemma has_char_rstrip (c : ascii) (s : string) :
  has_char c s = false -> has_char c (rstrip s) = false.
Proof.
  induction s as [| c' s IH]; simpl; intros Hs; [reflexivity |].
  apply orb_false_iff in Hs. destruct Hs as [Hc Hs]. specialize (IH Hs).
  destruct (rstrip s) eqn:E.
  - destruct (is_space c'); simpl; [reflexivity | now rewrite Hc].
  - simpl in *. now rewrite Hc, IH.
Qed.

Lemma has_char_strip (c : ascii) (s : string) :
  has_char c s = false -> has_char c (strip s) = false.
Proof. intros Hs. unfold strip. now apply has_char_rstrip, has_char_lstrip. Qed.

(** The pieces of a string without colon have no colon. *)
Lemma re_split_no_colon (s : string) (b : bool) :
  has_char colon s = false ->
  Forall (fun piece => has_char colon piece = false) (re_split_unescaped_comma b s).
Proof.
  revert b. induction s as [| c s IH]; intros b Hs; simpl.
  - repeat constructor.
  - simpl in Hs. apply orb_false_iff in Hs. destruct Hs as [Hc Hs].
    destruct (Ascii.eqb c comma && negb b).
    + constructor; [reflexivity | now apply IH].
    + specialize (IH (Ascii.eqb c backslash) Hs).
      destruct (re_split_unescaped_comma (Ascii.eqb c backslash) s) as [| t ts].
      * repeat constructor. simpl. now rewrite Hc.
      * inversion IH; subst. constructor; [simpl; now rewrite Hc | assumption].
Qed.

Lemma userlist_entry_no_colon (piece : string) :
  has_char colon piece = false -> userlist_entry piece = [].
Proof.
  intros Hp. unfold userlist_entry.
  rewrite (split_colon_none _ (has_char_strip _ _ Hp)).
  destruct (str_truthy (strip piece)); reflexivity.
Qed.

End BasicAuthFacts.

(** X1: the userlist builder decodes the basic-auth format.  For a
    non-empty list of representable credentials, written with commas
    escaped, fields joined by a colon and entries joined by commas, the
    section holds exactly one user statement per credential, in order, with
    the original user names and passwords. *)
Theorem userlist_decodes_encoded_credentials (creds : list (string * string)) :
  creds <> [] ->
  Forall (fun cred => BasicAuth.representable cred = true) creds ->
  _config_userlist_section (Some (BasicAuth.encode creds))
  = [("userlist haproxy_userlist", map BasicAuth.user_statement creds)].
Proof.
  intros Hne Hall.
  assert (Hbs : Forall (fun cred => BasicAuth.ends_with_backslash false (snd cred)
                                    = false) creds).
  { eapply Forall_impl; [| exact Hall]. intros cred Hr.
    unfold BasicAuth.representable in Hr. rewrite !andb_true_iff in Hr.
    destruct Hr as [_ Hr]. now apply negb_true_iff in Hr. }
  assert (Hentries : flat_map userlist_entry (map BasicAuth.encode_entry creds)
                     = map BasicAuth.user_statement creds).
  { clear Hne Hbs. induction Hall as [| cred creds Hcred _ IH]; simpl.
    - reflexivity.
    - now rewrite (BasicAuthFacts.userlist_entry_encode cred Hcred), IH. }
  assert (Htruthy : Py.truthy (Some (BasicAuth.encode creds)) = true).
  { destruct creds as [| cred creds]; [congruence |].
    unfold BasicAuth.encode. simpl.
    pose proof (BasicAuthFacts.entry_not_empty cred) as He.
    destruct creds; simpl.
    - destruct (BasicAuth.encode_entry cred); [discriminate | reflexivity].
    - destruct (BasicAuth.encode_entry cred); [discriminate | reflexivity]. }
  unfold _config_userlist_section. rewrite Htruthy.
  rewrite (BasicAuthFacts.re_split_encode creds Hne Hbs), Hentries.
  destruct creds as [| cred creds]; [congruence | reflexivity].
Qed.

Lemma userlist_decodes_encoded_credentials_witness :
  BasicAuth.encode [("alice", "secret"); ("bob", "pw,2"); ("c\d", "x:y,")]
  = "alice:secret,bob:pw\,2,c\d:x:y\,"
  /\ _config_userlist_section (Some "alice:secret,bob:pw\,2,c\d:x:y\,")
     = [("userlist haproxy_userlist",
         ["user alice insecure-password secret";
          "user bob insecure-password pw,2";
          "user c\d insecure-password x:y,"])].
Proof.
  split; [reflexivity |].
  refine (userlist_decodes_encoded_credentials
            [("alice", "secret"); ("bob", "pw,2"); ("c\d", "x:y,")] _ _).
  - discriminate.
  - repeat constructor.
Defined.

(** X2: an auth string without any colon gives no userlist section at
    all: entries that are not of the form [user:password] are dropped
    without a message, and a section is never emitted empty. *)
Theorem userlist_without_colon_is_absent (auth : string) :
  BasicAuth.has_char Py.colon auth = false ->
  _config_userlist_section (Some auth) = OrderedDict.empty.
Proof.
  intros Hc. unfold _config_userlist_section.
  destruct (Py.truthy (Some auth)); [| reflexivity].
  assert (Hnone : flat_map userlist_entry (Py.re_split_unescaped_comma false auth)
                  = []).
  { pose proof (BasicAuthFacts.re_split_no_colon auth false Hc) as Hall.
    induction Hall as [| piece pieces Hp _ IH]; simpl; [reflexivity |].
    now rewrite (BasicAuthFacts.userlist_entry_no_colon piece Hp), IH. }
  now rewrite Hnone.
Qed.

Lemma userlist_without_colon_is_absent_witness :
  _config_userlist_section (Some "alice,bob secret, ,") = OrderedDict.empty.
Proof. apply userlist_without_colon_is_absent. reflexivity. Defined.

(** ** Trace of a cycle *)

Section CycleTraceFacts.
Context `{Helpers}.
Variable conf : Config.

Lemma update_haproxy_trace (w : World) (cfg : string) (st : State) :
  trace (snd (_update_haproxy conf w cfg st))
  = (trace st
     ++ detector_events conf w cfg (cls_cfg (cls st)) (ssl_updated (self st))
          (cls_process (cls st)))%list.
Proof.
  unfold detector_events.
  destruct (update_haproxy_cases conf cfg st)
    as [Ha | [[Ha Hne] | [(Ha & He & Hu) | (Ha & He & Hu)]]]; rewrite Ha.
  - now rewrite update_haproxy_env.
  - rewrite update_haproxy_changed by assumption.
    apply cfg_eqb_false in Hne. rewrite Hne. simpl.
    destruct (save_to_file_result w); reflexivity.
  - rewrite update_haproxy_certs by assumption.
    pose proof (proj2 (cfg_eqb_true _ _) He) as Hb. rewrite Hb, Hu. reflexivity.
  - rewrite update_haproxy_unchanged by assumption.
    pose proof (proj2 (cfg_eqb_true _ _) He) as Hb. rewrite Hb, Hu. reflexivity.
Qed.

Lemma update_haproxy_cls_process (w : World) (cfg : string) (st : State) :
  cls_process (cls (snd (_update_haproxy conf w cfg st)))
  = if existsb is_reload
         (detector_events conf w cfg (cls_cfg (cls st)) (ssl_updated (self st))
            (cls_process (cls st)))
    then run_reload_result w else cls_process (cls st).
Proof.
  unfold detector_events.
  destruct (update_haproxy_cases conf cfg st)
    as [Ha | [[Ha Hne] | [(Ha & He & Hu) | (Ha & He & Hu)]]]; rewrite Ha.
  - now rewrite update_haproxy_env.
  - rewrite update_haproxy_changed by assumption.
    apply cfg_eqb_false in Hne. rewrite Hne. simpl.
    destruct (save_to_file_result w); reflexivity.
  - rewrite update_haproxy_certs by assumption.
    pose proof (proj2 (cfg_eqb_true _ _) He) as Hb. rewrite Hb, Hu. reflexivity.
  - rewrite update_haproxy_unchanged by assumption.
    pose proof (proj2 (cfg_eqb_true _ _) He) as Hb. rewrite Hb, Hu. reflexivity.
Qed.

(** The trace of a cycle: what the certificate aggregator does, then
    what the change detector does. *)
Lemma cycle_trace (specs : Specs) (w : World) (c : ClassState) :
  trace (cycle conf specs w c)
  = (ssl_events conf specs (cls_certs c)
     ++ detector_events conf w (cycle_text conf specs c) (cls_cfg c)
          (ssl_updated (self (after_ssl conf specs c))) (cls_process c))%list.
Proof.
  rewrite cycle_unfold, update_haproxy_trace.
  destruct (before_apply_frame conf specs c) as (Hc & Ht & Hu).
  rewrite Ht, Hc, Hu, after_ssl_eq. reflexivity.
Qed.

Lemma cycle_cls_process (specs : Specs) (w : World) (c : ClassState) :
  cls_process (cls (cycle conf specs w c))
  = if existsb is_reload
         (detector_events conf w (cycle_text conf specs c) (cls_cfg c)
            (ssl_updated (self (after_ssl conf specs c))) (cls_process c))
    then run_reload_result w else cls_process c.
Proof.
  rewrite cycle_unfold, update_haproxy_cls_process.
  destruct (before_apply_frame conf specs c) as (Hc & Ht & Hu).
  rewrite Hc, Hu, after_ssl_eq. reflexivity.
Qed.

Lemma ssl_events_kinds (specs : Specs) (last : list Cert) :
  forallb (fun e => negb (is_reload e || is_config_write e || is_launch e))
    (ssl_events conf specs last) = true.
Proof.
  unfold ssl_events.
  destruct (ssl_changed (leaf_certs conf specs) last);
    destruct (ssl_changed (ca_certs conf) _); reflexivity.
Qed.

Lemma detector_events_kinds (w : World) (cfg : string) (last_cfg : option string)
    (updated : bool) (old : option Process) :
  forallb (fun e => negb (is_cert_save e))
    (detector_events conf w cfg last_cfg updated old) = true.
Proof.
  unfold detector_events.
  destruct (api_mode conf); [| reflexivity].
  destruct (negb _); [destruct (save_to_file_result w) | destruct updated];
    reflexivity.
Qed.

Lemma filter_app_none {A : Type} (f : A -> bool) (l1 l2 : list A) :
  forallb (fun x => negb (f x)) l1 = true ->
  filter f (l1 ++ l2) = filter f l2.
Proof.
  intros Hall. rewrite filter_app.
  replace (filter f l1) with (@nil A); [reflexivity |].
  induction l1 as [| x l1 IH]; simpl in *; [reflexivity |].
  apply andb_true_iff in Hall. destruct Hall as [Hx Hall].
  apply negb_true_iff in Hx. rewrite Hx. now apply IH.
Qed.

Lemma forallb_weaken {A : Type} (f g : A -> bool) (l : list A) :
  (forall x, f x = true -> g x = true) ->
  forallb f l = true -> forallb g l = true.
Proof.
  intros Hfg. rewrite !forallb_forall. intros Hall x Hx. auto.
Qed.

End CycleTraceFacts.

(** X3: in every cycle the certificate files are saved before the
    change detector acts: the trace splits into the events of
    [_config_ssl], none of which is a configuration write, a reload or a
    launch, followed by the events of [_update_haproxy], none of which is a
    certificate save. *)
Theorem cert_saves_precede_detector `{Helpers} (conf : Config) (specs : Specs)
    (w : World) (c : ClassState) :
  let before := ssl_events conf specs (cls_certs c) in
  let after := detector_events conf w (cycle_text conf specs c) (cls_cfg c)
                 (ssl_updated (self (after_ssl conf specs c))) (cls_process c) in
  trace (cycle conf specs w c) = (before ++ after)%list
  /\ forallb (fun e => negb (is_reload e || is_config_write e || is_launch e)) before
     = true
  /\ forallb (fun e => negb (is_cert_save e)) after = true.
Proof.
  intros before after. split; [apply cycle_trace |].
  split; [apply ssl_events_kinds | apply detector_events_kinds].
Qed.

(** X4: a cycle writes the configuration file at most once, signals at
    most one reload and launches the balancer at most once; it never both
    reloads and launches. *)
Theorem cycle_acts_at_most_once `{Helpers} (conf : Config) (specs : Specs)
    (w : World) (c : ClassState) :
  let tr := trace (cycle conf specs w c) in
  length (filter is_config_write tr) <= 1
  /\ length (filter is_reload tr) <= 1
  /\ length (filter is_launch tr) <= 1
  /\ length (filter is_reload tr) + length (filter is_launch tr) <= 1.
Proof.
  intros tr. subst tr. rewrite cycle_trace.
  pose proof (ssl_events_kinds conf specs (cls_certs c)) as Hk.
  rewrite !filter_app_none.
  - unfold detector_events.
    destruct (api_mode conf); [| simpl; lia].
    destruct (negb _); [destruct (save_to_file_result w) |
                        destruct (ssl_updated _)]; simpl; lia.
  - revert Hk. apply forallb_weaken. intros e He.
    apply negb_true_iff, orb_false_iff in He. destruct He as [_ He].
    now rewrite He.
  - revert Hk. apply forallb_weaken. intros e He.
    apply negb_true_iff, orb_false_iff in He. destruct He as [He _].
    apply orb_false_iff in He. destruct He as [He _]. now rewrite He.
  - revert Hk. apply forallb_weaken. intros e He.
    apply negb_true_iff, orb_false_iff in He. destruct He as [He _].
    apply orb_false_iff in He. destruct He as [_ He]. now rewrite He.
Qed.

(** X5: under the remote API a cycle signals a reload exactly when the
    text changed and the write succeeded, or the text is unchanged and the
    certificates changed.  A changed text whose write fails gets no reload
    even when the certificates changed too.  The reload is given the
    process handle left by the cycle before, and [Haproxy.cls_process]
    changes exactly when a reload is signalled. *)
Theorem reload_decision `{Helpers} (conf : Config) (specs : Specs) (w : World)
    (c : ClassState) :
  api_mode conf = true ->
  let st' := cycle conf specs w c in
  let text_unchanged :=
    match cls_cfg c with
    | Some last => String.eqb last (cycle_text conf specs c)
    | None => false
    end in
  let reloads :=
    if text_unchanged then ssl_updated (self (after_ssl conf specs c))
    else save_to_file_result w in
  filter is_reload (trace st') = (if reloads then [RunReload (cls_process c)] else [])
  /\ cls_process (cls st') = (if reloads then run_reload_result w else cls_process c).
Proof.
  intros Hapi st' text_unchanged reloads. subst st'.
  rewrite cycle_cls_process, cycle_trace.
  rewrite filter_app_none.
  - unfold detector_events, reloads, text_unchanged. rewrite Hapi.
    destruct (match cls_cfg c with
              | Some last => String.eqb last (cycle_text conf specs c)
              | None => false
              end); simpl.
    + destruct (ssl_updated _); split; reflexivity.
    + destruct (save_to_file_result w); split; reflexivity.
  - pose proof (ssl_events_kinds conf specs (cls_certs c)) as Hk.
    revert Hk. apply forallb_weaken. intros e He.
    apply negb_true_iff, orb_false_iff in He. destruct He as [He _].
    apply orb_false_iff in He. destruct He as [He _]. now rewrite He.
Qed.

Lemma reload_decision_witness :
  let c1 := cls (cycle (H := Sample.helpers) Sample.conf_api
                   (Sample.specs_plain_cert "PEM A") Sample.world_ok class_init) in
  api_mode Sample.conf_api = true
  /\ ssl_updated
       (self (after_ssl (H := Sample.helpers) Sample.conf_api
                (Scenario.specs_mixed_cert "PEM B") c1)) = true
  /\ filter is_reload
       (trace (cycle (H := Sample.helpers) Sample.conf_api
                 (Scenario.specs_mixed_cert "PEM B") Sample.world_write_fails c1))
     = []
  /\ filter is_reload
       (trace (cycle (H := Sample.helpers) Sample.conf_api
                 (Sample.specs_plain_cert "PEM B") Sample.world_write_fails c1))
     = [RunReload (Some 4711)].
Proof.
  split; [reflexivity |]. split; [reflexivity |]. split.
  - exact (proj1 (reload_decision (H := Sample.helpers) Sample.conf_api
                    (Scenario.specs_mixed_cert "PEM B") Sample.world_write_fails
                    (cls (cycle Sample.conf_api (Sample.specs_plain_cert "PEM A")
                            Sample.world_ok class_init))
                    eq_refl)).
  - exact (proj1 (reload_decision (H := Sample.helpers) Sample.conf_api
                    (Sample.specs_plain_cert "PEM B") Sample.world_write_fails
                    (cls (cycle Sample.conf_api (Sample.specs_plain_cert "PEM A")
                            Sample.world_ok class_init))
                    eq_refl)).
Defined.

(** X6: without the remote API the class keeps no record of the
    balancer: in every state the process can reach [Haproxy.cls_cfg] and
    [Haproxy.cls_process] are [None], and every cycle, the first as any
    later one, ends by writing the file and launching the balancer. *)
Theorem env_mode_keeps_no_record `{Helpers} (conf : Config) (c : ClassState) :
  reachable conf c ->
  api_mode conf = false ->
  cls_cfg c = None
  /\ cls_process c = None
  /\ forall (specs : Specs) (w : World),
       trace (cycle conf specs w c)
       = (ssl_events conf specs (cls_certs c)
          ++ [Log ("HAProxy configuration:" ++ Py.newline ++ cycle_text conf specs c);
              SaveToFile (HAPROXY_CONFIG_FILE conf) (cycle_text conf specs c);
              RunOnce])%list.
Proof.
  intros Hreach Hapi.
  split; [exact (reachable_env_cls_cfg conf c Hreach Hapi) |].
  split.
  - induction Hreach as [| specs w c Hr IH]; [reflexivity |].
    rewrite cycle_cls_process. unfold detector_events. rewrite Hapi. exact IH.
  - intros specs w. rewrite cycle_trace. unfold detector_events.
    now rewrite Hapi.
Qed.

Lemma env_mode_keeps_no_record_witness :
  let c1 := cls (cycle (H := Sample.helpers) Sample.conf_env Sample.specs_plain
                   Sample.world_ok class_init) in
  api_mode Sample.conf_env = false
  /\ cls_cfg c1 = None
  /\ cls_process c1 = None.
Proof.
  split; [reflexivity |].
  pose proof (env_mode_keeps_no_record (H := Sample.helpers) Sample.conf_env
                (cls (cycle Sample.conf_env Sample.specs_plain Sample.world_ok
                        class_init))
                (reach_cycle Sample.conf_env Sample.specs_plain Sample.world_ok
                   class_init (reach_init Sample.conf_env))
                eq_refl) as (Hcfg & Hproc & _).
  split; [exact Hcfg | exact Hproc].
Defined.

(** ** More on the certificate aggregator *)

(** X7: the bind options [_config_ssl] leaves in [self.ssl_bind_string]
    depend only on which of the two certificate lists are in use: nothing
    when neither is, the [ssl crt] clause for leaf certificates, the
    [ca-file] clause (with its leading blank and without [ssl]) for a CA
    certificate alone, and both clauses otherwise. *)
Theorem ssl_bind_string_by_lists `{Helpers} (conf : Config) (specs : Specs)
    (c : ClassState) :
  ssl_bind_string (self (after_ssl conf specs c))
  = match leaf_certs conf specs, ca_certs conf with
    | [], [] => None
    | _ :: _, [] => Some "ssl crt /certs/"
    | [], _ :: _ => Some " ca-file /cacerts/cert0.pem verify required"
    | _ :: _, _ :: _ =>
        Some "ssl crt /certs/ ca-file /cacerts/cert0.pem verify required"
    end.
Proof.
  rewrite after_ssl_eq. simpl. unfold ssl_bind_value.
  destruct (leaf_certs conf specs), (ca_certs conf); reflexivity.
Qed.

(** X8: with no CA certificate in use, a cycle that follows a cycle
    with leaf certificates reports a certificate change exactly when its
    own leaf list is not empty and differs, as a set, from the list of the
    cycle before; order and repetition of the certificates do not count.
    The certificates are saved exactly in that case. *)
Theorem leaf_change_detected_exactly `{Helpers} (conf : Config)
    (specs1 specs2 : Specs) (w1 : World) (c0 : ClassState) :
  ca_certs conf = [] ->
  leaf_certs conf specs1 <> [] ->
  let c1 := cls (cycle conf specs1 w1 c0) in
  let changed :=
    Py.nonempty (leaf_certs conf specs2)
    && negb (Py.set_eqb (leaf_certs conf specs2) (leaf_certs conf specs1)) in
  ssl_updated (self (after_ssl conf specs2 c1)) = changed
  /\ trace (after_ssl conf specs2 c1)
     = (if changed
        then [SaveCerts (CERT_DIR conf) (leaf_certs conf specs2);
              Log "SSL certificates are updated"]
        else []).
Proof.
  intros Hca Hleaf c1 changed.
  assert (Hstored : Py.set_eqb (leaf_certs conf specs1) (cls_certs c1) = true).
  { unfold c1. rewrite cycle_cls_certs. unfold certs_after_ssl, certs_after_leaf.
    rewrite Hca. simpl.
    destruct (ssl_changed (leaf_certs conf specs1) (cls_certs c0)) eqn:E.
    - apply PyFacts.set_eqb_refl.
    - unfold ssl_changed in E.
      destruct (leaf_certs conf specs1) as [| x l]; [congruence |].
      simpl in E. now apply negb_false_iff in E. }
  assert (Hcmp : ssl_changed (leaf_certs conf specs2) (cls_certs c1) = changed).
  { unfold ssl_changed, changed. f_equal. f_equal.
    rewrite PyFacts.set_eqb_sym in Hstored.
    symmetry. apply PyFacts.set_eqb_congr.
    now rewrite PyFacts.set_eqb_sym. }
  rewrite after_ssl_eq. simpl. unfold ssl_events, certs_after_leaf.
  rewrite Hca, Hcmp. simpl. rewrite orb_false_r, app_nil_r. split; reflexivity.
Qed.

Lemma leaf_change_detected_exactly_witness :
  let c1 := cls (cycle (H := Sample.helpers) Sample.conf_api
                   (Sample.specs_plain_cert "PEM A") Sample.world_ok class_init) in
  ca_certs Sample.conf_api = []
  /\ leaf_certs (H := Sample.helpers) Sample.conf_api
       (Sample.specs_plain_cert "PEM A") <> []
  /\ ssl_updated
       (self (after_ssl (H := Sample.helpers) Sample.conf_api
                (Sample.specs_plain_cert "PEM A") c1)) = false
  /\ ssl_updated
       (self (after_ssl (H := Sample.helpers) Sample.conf_api
                (Sample.specs_plain_cert "PEM B") c1)) = true.
Proof.
  split; [reflexivity |]. split; [discriminate |].
  split.
  - exact (proj1 (leaf_change_detected_exactly (H := Sample.helpers)
                    Sample.conf_api (Sample.specs_plain_cert "PEM A")
                    (Sample.specs_plain_cert "PEM A") Sample.world_ok class_init
                    eq_refl ltac:(discriminate))).
  - exact (proj1 (leaf_change_detected_exactly (H := Sample.helpers)
                    Sample.conf_api (Sample.specs_plain_cert "PEM A")
                    (Sample.specs_plain_cert "PEM B") Sample.world_ok class_init
                    eq_refl ltac:(discriminate))).
Defined.

(** X9: the first cycle of a process always writes the configuration
    file, in either mode, and saves the leaf certificates whenever there
    are any: the class starts with no text and no certificates. *)
Theorem first_cycle_writes_everything `{Helpers} (conf : Config) (specs : Specs)
    (w : World) :
  let tr := trace (cycle conf specs w class_init) in
  In (SaveToFile (HAPROXY_CONFIG_FILE conf) (cycle_text conf specs class_init)) tr
  /\ (leaf_certs conf specs <> [] ->
      In (SaveCerts (CERT_DIR conf) (leaf_certs conf specs)) tr
      /\ ssl_updated (self (after_ssl conf specs class_init)) = true).
Proof.
  intros tr. subst tr. rewrite cycle_trace. split.
  - apply in_or_app. right. unfold detector_events. simpl.
    destruct (api_mode conf); simpl; auto.
  - intros Hleaf.
    assert (Hchg : ssl_changed (leaf_certs conf specs) [] = true).
    { unfold ssl_changed, Py.set_eqb.
      destruct (leaf_certs conf specs) as [| x l]; [congruence | reflexivity]. }
    split.
    + apply in_or_app. left. unfold ssl_events. simpl. rewrite Hchg.
      now left.
    + rewrite after_ssl_eq. simpl. rewrite Hchg. apply orb_true_r.
Qed.

Lemma first_cycle_writes_everything_witness :
  leaf_certs (H := Sample.helpers) Sample.conf_api (Sample.specs_plain_cert "PEM A")
  <> []
  /\ In (SaveCerts "/certs/" ["PEM A"])
       (trace (cycle (H := Sample.helpers) Sample.conf_api
                 (Sample.specs_plain_cert "PEM A") Sample.world_ok class_init)).
Proof.
  split; [discriminate |].
  exact (proj1 (proj2 (first_cycle_writes_everything (H := Sample.helpers)
                         Sample.conf_api (Sample.specs_plain_cert "PEM A")
                         Sample.world_ok)
                  ltac:(discriminate))).
Defined.

(** ** Runs of assignments to an ordered dictionary *)

Module AssignmentFacts.
Import OrderedDict Assignments.

Section Assignments.
Context {A : Type}.
Variable name : A -> string.
Variable value : A -> list string.

(** Every binding comes from the dictionary at the start or from
    one of the assignments. *)
Lemma fold_assign_sound (k : string) (v : list string) (l : list A) (d : t) :
  get k (fold_left (assign name value) l d) = Some v ->
  get k d = Some v \/ exists x, In x l /\ name x = k /\ value x = v.
Proof.
  revert d. induction l as [| a l IH]; intros d Hget; simpl in *.
  - now left.
  - destruct (IH _ Hget) as [Hd | (x & Hx & Hn & Hv)].
    + unfold assign in Hd. rewrite OrderedDictFacts.get_set in Hd.
      destruct (String.eqb k (name a)) eqn:E.
      * right. exists a. apply String.eqb_eq in E.
        injection Hd as Hd. repeat split; auto.
      * now left.
    + right. exists x. auto.
Qed.

(** The last assignment to a name decides its value. *)
Lemma fold_assign_last (pre post : list A) (a : A) (d : t) :
  (forall b, In b post -> name b <> name a) ->
  get (name a) (fold_left (assign name value) (pre ++ a :: post) d) = Some (value a).
Proof.
  intros Hpost. rewrite fold_left_app. simpl.
  generalize (fold_left (assign name value) pre d) as d0. intros d0.
  assert (Hget : get (name a) (assign name value d0 a) = Some (value a))
    by apply OrderedDictFacts.get_set_same.
  revert Hget. generalize (assign name value d0 a) as d1.
  induction post as [| b post IH]; intros d1 Hget; simpl.
  - exact Hget.
  - apply IH.
    + intros x Hx. apply Hpost. now right.
    + unfold assign. rewrite OrderedDictFacts.get_set_other; [exact Hget |].
      intro Heq. apply (Hpost b); [now left | now symmetry].
Qed.

Lemma fold_assign_nodup (l : list A) (d : t) :
  NoDup (keys d) -> NoDup (keys (fold_left (assign name value) l d)).
Proof.
  revert d. induction l as [| a l IH]; intros d Hnd; simpl.
  - exact Hnd.
  - apply IH. now apply OrderedDictFacts.nodup_keys_set.
Qed.

End Assignments.

Lemma append_inj_l (p a b : string) : (p ++ a)%string = (p ++ b)%string -> a = b.
Proof.
  induction p as [| c p IH]; simpl; intros Heq; [exact Heq |].
  injection Heq as Heq. now apply IH.
Qed.

Lemma has_key_get (k : string) (d : t) :
  has_key k d = false <-> get k d = None.
Proof. unfold has_key. destruct (get k d); split; congruence. Qed.

(** Assigning keys only appends to the key sequence. *)
Lemma fold_add_key_prefix (ks acc : list string) :
  exists rest, fold_left add_key ks acc = (acc ++ rest)%list.
Proof.
  revert acc. induction ks as [| k ks IH]; intros acc; simpl.
  - exists []. now rewrite app_nil_r.
  - destruct (IH (add_key acc k)) as [rest Hrest]. rewrite Hrest.
    unfold add_key. destruct (Py.mem k acc).
    + now exists rest.
    + exists (k :: rest). now rewrite <- app_assoc.
Qed.

Lemma fold_add_key_keeps_prefix (p ks acc : list string) :
  (exists rest, acc = (p ++ rest)%list) ->
  exists rest, fold_left add_key ks acc = (p ++ rest)%list.
Proof.
  intros [r0 ->]. destruct (fold_add_key_prefix ks (p ++ r0)) as [r1 Hr1].
  exists (r0 ++ r1)%list. now rewrite Hr1, app_assoc.
Qed.

End AssignmentFacts.

(** ** TCP listener sections *)

Section TcpFacts.
Context `{Helpers}.
Variable conf : Config.
Variable specs : Specs.

Lemma tcp_section_result (tcp_port : string) (st : State) :
  fst (get_tcp_section conf specs (get_details specs) (get_service_aliases specs)
         tcp_port st)
  = (tcp_section_statements conf specs (ssl_bind_string (self st)) tcp_port,
     tcp_port_num (ssl_bind_string (self st)) tcp_port).
Proof.
  unfold get_tcp_section, tcp_section_statements, tcp_port_num. run_monad.
  destruct (parse_port_string tcp_port (ssl_bind_string (self st))) as [e n].
  simpl. destruct (get_tcp_routes (get_details specs) (get_routes specs) tcp_port n).
  reflexivity.
Qed.

(** The loop as a run of assignments, one per token. *)
Lemma tcp_loop_assignments (ports : list string) (cfg : OrderedDict.t) (st : State) :
  fst (tcp_loop conf specs (get_details specs) (get_service_aliases specs)
         ports cfg st)
  = fold_left
      (Assignments.assign
         (fun p => "listen port_" ++ tcp_port_num (ssl_bind_string (self st)) p)
         (tcp_section_statements conf specs (ssl_bind_string (self st))))
      ports cfg.
Proof.
  revert cfg st. induction ports as [| p ports IH]; intros cfg st; simpl.
  - reflexivity.
  - unfold bind.
    pose proof (tcp_section_bind_string conf specs (get_details specs)
                  (get_service_aliases specs) p st) as Hb.
    pose proof (tcp_section_result p st) as Hr.
    destruct (get_tcp_section conf specs (get_details specs)
                (get_service_aliases specs) p st) as [r s1].
    simpl in Hb, Hr. rewrite IH, Hb, Hr. reflexivity.
Qed.

Lemma tcp_sections_assignments (c : ClassState) :
  tcp_sections conf specs c
  = fold_left
      (Assignments.assign
         (fun p =>
            "listen port_"
              ++ tcp_port_num (ssl_bind_string (self (after_ssl conf specs c))) p)
         (tcp_section_statements conf specs
            (ssl_bind_string (self (after_ssl conf specs c)))))
      (tcp_tokens specs) OrderedDict.empty.
Proof.
  unfold tcp_sections, _config_tcp_sections, tcp_tokens.
  destruct (negb _); [reflexivity | apply tcp_loop_assignments].
Qed.

(** A name that is not a listener name is not assigned by the loop. *)
Lemma tcp_sections_other_key (k : string) (c : ClassState) :
  (forall n, String.eqb k ("listen port_" ++ n) = false) ->
  OrderedDict.has_key k (tcp_sections conf specs c) = false.
Proof.
  intros Hk. rewrite tcp_sections_assignments.
  generalize (tcp_tokens specs) as ports.
  assert (Hgen : forall ports d,
             OrderedDict.has_key k d = false ->
             OrderedDict.has_key k
               (fold_left
                  (Assignments.assign
                     (fun p =>
                        "listen port_"
                          ++ tcp_port_num
                               (ssl_bind_string (self (after_ssl conf specs c))) p)
                     (tcp_section_statements conf specs
                        (ssl_bind_string (self (after_ssl conf specs c)))))
                  ports d) = false).
  { induction ports as [| p ports IH]; intros d Hd; cbn [fold_left];
      [exact Hd |].
    apply IH. unfold Assignments.assign.
    rewrite OrderedDictFacts.has_key_set. cbv beta. now rewrite Hk. }
  intros ports. now apply Hgen.
Qed.

End TcpFacts.

(** X10: every TCP listener section comes from one port token of the
    iterated set: it is named after the port number the token parses to
    and holds the statements built for that token, which begin with the
    bind statement and a forced [mode tcp]. *)
Theorem tcp_section_comes_from_a_token `{Helpers} (conf : Config) (specs : Specs)
    (c : ClassState) (k : string) (v : list string) :
  OrderedDict.get k (tcp_sections conf specs c) = Some v ->
  let bind_opts := ssl_bind_string (self (after_ssl conf specs c)) in
  exists tcp_port : string,
    In tcp_port (tcp_tokens specs)
    /\ k = "listen port_" ++ tcp_port_num bind_opts tcp_port
    /\ v = tcp_section_statements conf specs bind_opts tcp_port
    /\ exists (b : string) (rest : list string),
         v = ("bind :" ++ b) :: "mode tcp" :: rest.
Proof.
  intros Hget bind_opts. rewrite tcp_sections_assignments in Hget.
  apply AssignmentFacts.fold_assign_sound in Hget.
  destruct Hget as [Hempty | (p & Hin & Hname & Hval)]; [discriminate |].
  exists p. fold bind_opts in Hname, Hval.
  repeat split; auto.
  rewrite <- Hval. unfold tcp_section_statements. simpl. eauto.
Qed.

Lemma tcp_section_comes_from_a_token_witness :
  OrderedDict.get "listen port_80"
    (tcp_sections (H := Sample.helpers) Sample.conf_api Sample.specs_two_ports
       class_init)
  = Some ["bind :80"; "mode tcp"; "server WEB_1 10.7.0.2:80"]
  /\ exists tcp_port : string,
       In tcp_port (tcp_tokens (H := Sample.helpers) Sample.specs_two_ports)
       /\ "listen port_80" = "listen port_" ++ tcp_port.
Proof.
  split; [reflexivity |].
  destruct (tcp_section_comes_from_a_token (H := Sample.helpers) Sample.conf_api
              Sample.specs_two_ports class_init "listen port_80"
              ["bind :80"; "mode tcp"; "server WEB_1 10.7.0.2:80"] eq_refl)
    as (p & Hin & Hname & _).
  exists p. split; [exact Hin | exact Hname].
Defined.

(** X11: there is one TCP listener section per port number, not per
    token.  The section of a port number holds the statements built for the
    last token, in the iteration order of the set, that parses to this
    number; section names are distinct. *)
Theorem last_token_of_a_port_wins `{Helpers} (conf : Config) (specs : Specs)
    (c : ClassState) (pre post : list string) (tcp_port : string) :
  let bind_opts := ssl_bind_string (self (after_ssl conf specs c)) in
  tcp_tokens specs = (pre ++ tcp_port :: post)%list ->
  (forall q, In q post -> tcp_port_num bind_opts q <> tcp_port_num bind_opts tcp_port) ->
  OrderedDict.get ("listen port_" ++ tcp_port_num bind_opts tcp_port)
    (tcp_sections conf specs c)
  = Some (tcp_section_statements conf specs bind_opts tcp_port)
  /\ NoDup (OrderedDict.keys (tcp_sections conf specs c)).
Proof.
  intros bind_opts Htokens Hpost. rewrite tcp_sections_assignments.
  fold bind_opts. split.
  - rewrite Htokens.
    apply (AssignmentFacts.fold_assign_last
             (fun p => "listen port_" ++ tcp_port_num bind_opts p)
             (tcp_section_statements conf specs bind_opts)).
    intros q Hq Heq. apply (Hpost q Hq).
    now apply AssignmentFacts.append_inj_l in Heq.
  - apply AssignmentFacts.fold_assign_nodup. constructor.
Qed.

Lemma last_token_of_a_port_wins_witness :
  tcp_tokens (H := Sample.helpers) Sample.specs_two_ports = ["80"; "5432"]
  /\ OrderedDict.get "listen port_80"
       (tcp_sections (H := Sample.helpers) Sample.conf_api Sample.specs_two_ports
          class_init)
     = Some ["bind :80"; "mode tcp"; "server WEB_1 10.7.0.2:80"].
Proof.
  split; [reflexivity |].
  refine (proj1 (last_token_of_a_port_wins (H := Sample.helpers) Sample.conf_api
                   Sample.specs_two_ports class_init [] ["5432"] "80" eq_refl _)).
  intros q [<- | []]. discriminate.
Defined.

(** ** Backend sections of services with a virtual host *)

Section BackendFacts.
Context `{Helpers}.
Variable conf : Config.
Variable specs : Specs.

Lemma service_names_differ (a b : string) :
  a <> b ->
  String.eqb ("backend SERVICE_" ++ a) ("backend SERVICE_" ++ b) = false.
Proof.
  intros Hne. apply String.eqb_neq. intros Heq. apply Hne.
  exact (AssignmentFacts.append_inj_l "backend SERVICE_" a b Heq).
Qed.

(** A turn for another alias leaves the section of [a] alone. *)
Lemma backend_step_other_alias (added : list Route) (required : bool)
    (cfg : OrderedDict.t) (a : string) (b : option string) :
  b <> Some a ->
  OrderedDict.get ("backend SERVICE_" ++ a) (backend_step specs added required cfg b)
  = OrderedDict.get ("backend SERVICE_" ++ a) cfg.
Proof.
  intros Hne. unfold backend_step.
  destruct b as [b |].
  - destruct (alias_falsy (Some b)).
    + destruct required; [| reflexivity].
      rewrite OrderedDictFacts.get_set. reflexivity.
    + destruct (get_service_attribute _ _ _);
        rewrite OrderedDictFacts.get_set.
      * rewrite service_names_differ; [reflexivity | congruence].
      * reflexivity.
  - change (alias_falsy None) with true. cbv iota.
    destruct required; [| reflexivity].
    rewrite OrderedDictFacts.get_set. reflexivity.
Qed.

Lemma backend_step_own_alias (added : list Route) (required : bool)
    (cfg : OrderedDict.t) (a : string) :
  Py.str_truthy a = true ->
  get_service_attribute (get_details specs) "virtual_host" (Some a) = true ->
  OrderedDict.get ("backend SERVICE_" ++ a)
    (backend_step specs added required cfg (Some a))
  = Some (get_backend_section (get_details specs) (get_routes specs)
            (get_vhosts specs) (Some a) added).
Proof.
  intros Ha Hvh. unfold backend_step, alias_falsy.
  rewrite truthy_some, Ha, Hvh. simpl negb. cbv iota.
  apply OrderedDictFacts.get_set_same.
Qed.

Lemma backend_fold_own_section (added : list Route) (required : bool)
    (aliases : list (option string)) (cfg : OrderedDict.t) (a : string) :
  Py.str_truthy a = true ->
  get_service_attribute (get_details specs) "virtual_host" (Some a) = true ->
  In (Some a) aliases
  \/ OrderedDict.get ("backend SERVICE_" ++ a) cfg
     = Some (get_backend_section (get_details specs) (get_routes specs)
               (get_vhosts specs) (Some a) added) ->
  OrderedDict.get ("backend SERVICE_" ++ a)
    (fold_left (backend_step specs added required) aliases cfg)
  = Some (get_backend_section (get_details specs) (get_routes specs)
            (get_vhosts specs) (Some a) added).
Proof.
  intros Ha Hvh. revert cfg.
  induction aliases as [| b aliases IH]; intros cfg Hor; cbn [fold_left].
  - destruct Hor as [[] | Hget]. exact Hget.
  - apply IH.
    assert (Hdec : b = Some a \/ b <> Some a).
    { destruct b as [b |]; [| right; discriminate].
      destruct (String.string_dec b a) as [-> | Hne]; [now left |].
      right. congruence. }
    destruct Hdec as [-> | Hne].
    + right. now apply backend_step_own_alias.
    + destruct Hor as [[Heq | Hin] | Hget].
      * congruence.
      * now left.
      * right. rewrite backend_step_other_alias by exact Hne. exact Hget.
Qed.

(** Names that are no backend names are not assigned by the loop. *)
Lemma backend_sections_other_key (k : string) (c : ClassState) :
  String.eqb k "backend default_service" = false ->
  (forall a, String.eqb k ("backend SERVICE_" ++ a) = false) ->
  OrderedDict.has_key k (backend_sections conf specs c) = false.
Proof.
  intros Hd Hs. unfold backend_sections. rewrite backend_sections_run.
  cbn [fst]. generalize (backend_aliases specs) as aliases.
  assert (Hgen : forall aliases d,
             OrderedDict.has_key k d = false ->
             OrderedDict.has_key k
               (fold_left
                  (backend_step specs
                     (routes_added (self (after_frontends conf specs c)))
                     (require_default_route
                        (self (after_frontends conf specs c))))
                  aliases d) = false).
  { induction aliases as [| b aliases IH]; intros d Hkd; cbn [fold_left];
      [exact Hkd |].
    apply IH. unfold backend_step.
    destruct (alias_falsy b).
    - destruct (require_default_route _); [| exact Hkd].
      now rewrite OrderedDictFacts.has_key_set, Hd.
    - destruct (get_service_attribute _ _ _);
        rewrite OrderedDictFacts.has_key_set.
      + now rewrite Hs.
      + now rewrite Hd. }
  intros aliases. now apply Hgen.
Qed.

Lemma userlist_other_key (k : string) (basic_auth : option string) :
  String.eqb k "userlist haproxy_userlist" = false ->
  OrderedDict.has_key k (_config_userlist_section basic_auth) = false.
Proof.
  intros Hk. unfold _config_userlist_section.
  destruct basic_auth as [s |]; [| reflexivity].
  destruct (Py.truthy (Some s)); [| reflexivity].
  destruct (Py.nonempty _); [| reflexivity].
  unfold OrderedDict.has_key. simpl. now rewrite Hk.
Qed.

(** A name no later builder assigns keeps the value the static
    sections gave it. *)
Lemma static_section_kept (k : string) (c : ClassState) :
  String.eqb k "userlist haproxy_userlist" = false ->
  (forall n, String.eqb k ("listen port_" ++ n) = false) ->
  String.eqb k "backend default_service" = false ->
  (forall a, String.eqb k ("backend SERVICE_" ++ a) = false) ->
  OrderedDict.has_key k (frontend_sections conf specs c) = false ->
  OrderedDict.get k (cycle_cfg_dict conf specs c)
  = OrderedDict.get k
      (OrderedDict.update
         (OrderedDict.update
            (OrderedDict.update OrderedDict.empty (_config_global_section conf))
            (_config_defaults_section conf))
         (_config_stats_section conf)).
Proof.
  intros Hu Hl Hd Hs Hfe. rewrite cycle_cfg_dict_eq.
  rewrite OrderedDictFacts.get_update_absent
    by now apply backend_sections_other_key.
  rewrite OrderedDictFacts.get_update_absent by exact Hfe.
  rewrite OrderedDictFacts.get_update_absent
    by now apply tcp_sections_other_key.
  rewrite OrderedDictFacts.get_update_absent by now apply userlist_other_key.
  reflexivity.
Qed.

End BackendFacts.

(** X12: when virtual hosts exist, every service alias of the topology
    that carries [virtual_host] has a section [backend SERVICE_<alias>] of
    its own in the document, holding the statements built for that alias:
    no other alias and no default backend writes into it. *)
Theorem service_with_virtual_host_has_own_backend `{Helpers} (conf : Config)
    (specs : Specs) (c : ClassState) (a : string) :
  Py.nonempty (get_vhosts specs) = true ->
  In a (get_service_aliases specs) ->
  Py.str_truthy a = true ->
  get_service_attribute (get_details specs) "virtual_host" (Some a) = true ->
  OrderedDict.get ("backend SERVICE_" ++ a) (cycle_cfg_dict conf specs c)
  = Some (get_backend_section (get_details specs) (get_routes specs)
            (get_vhosts specs) (Some a)
            (routes_added (self (after_frontends conf specs c)))).
Proof.
  intros Hvhosts Hin Ha Hvh.
  rewrite cycle_cfg_dict_eq.
  rewrite OrderedDictFacts.get_update by apply backend_sections_nodup.
  unfold backend_sections. rewrite backend_sections_run. cbn [fst].
  rewrite backend_fold_own_section; try assumption; [reflexivity |].
  left. unfold backend_aliases. rewrite Hvhosts. simpl.
  now apply in_map.
Qed.

Lemma service_with_virtual_host_has_own_backend_witness :
  Py.nonempty (get_vhosts (H := Sample.helpers) Sample.specs_mixed) = true
  /\ In "WEB" (get_service_aliases (H := Sample.helpers) Sample.specs_mixed)
  /\ OrderedDict.get "backend SERVICE_WEB"
       (cycle_cfg_dict (H := Sample.helpers) Sample.conf_api Sample.specs_mixed
          class_init)
     = Some ["server WEB_1 10.7.0.2:80"].
Proof.
  split; [reflexivity |]. split; [now left |].
  exact (service_with_virtual_host_has_own_backend (H := Sample.helpers)
           Sample.conf_api Sample.specs_mixed class_init "WEB"
           eq_refl (or_introl eq_refl) eq_refl eq_refl).
Defined.

(** X13: without virtual hosts the service aliases are not resolved
    one by one.  The backend resolver runs once, for no alias: it emits the
    single section [backend default_service] when the route check asks for
    a default route, and nothing at all otherwise, however many services
    the topology has. *)
Theorem no_virtual_host_single_backend `{Helpers} (conf : Config) (specs : Specs)
    (c : ClassState) :
  Py.nonempty (get_vhosts specs) = false ->
  let added := routes_added (self (after_tcp conf specs c)) in
  backend_sections conf specs c
  = if check_require_default_route (get_routes specs) added
    then [("backend default_service",
           get_backend_section (get_details specs) (get_routes specs)
             (get_vhosts specs) None added)]
    else [].
Proof.
  intros Hvhosts added.
  destruct (after_frontends_self conf specs c) as [Hreq Hadded].
  unfold backend_sections. rewrite backend_sections_run. cbn [fst].
  unfold backend_aliases. rewrite Hvhosts. simpl fold_left.
  unfold backend_step. simpl alias_falsy. cbv iota.
  rewrite Hreq, Hadded, Hvhosts. simpl negb. simpl andb. fold added.
  destruct (check_require_default_route (get_routes specs) added); reflexivity.
Qed.

Lemma no_virtual_host_single_backend_witness :
  Py.nonempty (get_vhosts (H := Sample.helpers) Sample.specs_two_ports) = false
  /\ backend_sections (H := Sample.helpers) Sample.conf_api Sample.specs_two_ports
       class_init
     = [("backend default_service", ["server WEB_1 10.7.0.2:80"])].
Proof.
  split; [reflexivity |].
  exact (no_virtual_host_single_backend (H := Sample.helpers) Sample.conf_api
           Sample.specs_two_ports class_init eq_refl).
Defined.

(** ** The static sections in the document *)

(** X14: whatever the topology and the helpers return, the document
    starts with the sections [global], [defaults] and [listen stats], in
    this order. *)
Theorem document_starts_with_static_sections `{Helpers} (conf : Config)
    (specs : Specs) (c : ClassState) :
  exists rest : list string,
    OrderedDict.keys (cycle_cfg_dict conf specs c)
    = (["global"; "defaults"; "listen stats"] ++ rest)%list.
Proof.
  rewrite cycle_cfg_dict_eq, !OrderedDictFacts.keys_update.
  do 4 apply AssignmentFacts.fold_add_key_keeps_prefix.
  exists []. reflexivity.
Qed.

(** X15: the TCP listener, userlist and backend builders never touch
    the static sections.  Unless a frontend section takes one of their
    names, [global], [defaults] and [listen stats] keep in the document the
    statements their own builders gave them. *)
Theorem static_sections_are_not_overwritten `{Helpers} (conf : Config)
    (specs : Specs) (c : ClassState) :
  (forall k, In k ["global"; "defaults"; "listen stats"] ->
             OrderedDict.has_key k (frontend_sections conf specs c) = false) ->
  OrderedDict.get "global" (cycle_cfg_dict conf specs c)
  = OrderedDict.get "global" (_config_global_section conf)
  /\ OrderedDict.get "defaults" (cycle_cfg_dict conf specs c)
     = OrderedDict.get "defaults" (_config_defaults_section conf)
  /\ OrderedDict.get "listen stats" (cycle_cfg_dict conf specs c)
     = OrderedDict.get "listen stats" (_config_stats_section conf).
Proof.
  intros Hfe. repeat split.
  - rewrite static_section_kept; try reflexivity. apply Hfe. simpl. auto.
  - rewrite static_section_kept; try reflexivity. apply Hfe. simpl. auto.
  - rewrite static_section_kept; try reflexivity. apply Hfe. simpl. auto.
Qed.

Lemma static_sections_are_not_overwritten_witness :
  OrderedDict.get "listen stats"
    (cycle_cfg_dict (H := Sample.helpers) Sample.conf_api Sample.specs_two_ports
       class_init)
  = Some ["bind :1936"; "mode http"; "stats enable"; "timeout connect 10s";
          "timeout client 1m"; "timeout server 1m"; "stats hide-version";
          "stats realm Haproxy\ Statistics"; "stats uri /";
          "stats auth stats:stats"].
Proof.
  refine (proj2 (proj2 (static_sections_are_not_overwritten (H := Sample.helpers)
                          Sample.conf_api Sample.specs_two_ports class_init _))).
  intros k [<- | [<- | [<- | []]]]; reflexivity.
Defined.

(** ** The bind statement of the stats section *)

Module StripFacts.
Import Py.

Lemma rstrip_blank (s : string) : rstrip (s ++ " ") = rstrip s.
Proof.
  induction s as [| c s IH]; simpl; [reflexivity | now rewrite IH].
Qed.

(** A blank at the end does not survive [strip]. *)
Lemma strip_blank (s : string) : strip (s ++ " ") = strip s.
Proof.
  unfold strip. induction s as [| c s IH]; simpl.
  - reflexivity.
  - destruct (is_space c); [exact IH |].
    change (String c (s ++ " ")) with (String c s ++ " ")%string.
    apply rstrip_blank.
Qed.

Lemma bind_settings_missing (k : string) (d : list (string * string)) :
  (forall v, ~ In (k, v) d) -> bind_settings_get k d = "".
Proof.
  induction d as [| [k' v'] d IH]; simpl; intros Hk; [reflexivity |].
  destruct (String.eqb k k') eqn:E.
  - apply String.eqb_eq in E. subst k'. exfalso. apply (Hk v'). now left.
  - apply IH. intros v Hin. apply (Hk v). now right.
Qed.

End StripFacts.

(** X16: when [EXTRA_BIND_SETTINGS] has no entry for the stats port, the
    stats section binds to the bare port: the blank that joins the port to
    its (missing) settings is stripped. *)
Theorem stats_bind_without_extra_settings (conf : Config) :
  (forall v, ~ In (STATS_PORT conf, v) (EXTRA_BIND_SETTINGS conf)) ->
  exists rest : list string,
    OrderedDict.get "listen stats" (_config_stats_section conf)
    = Some (("bind :" ++ Py.strip (STATS_PORT conf)) :: "mode http" :: rest).
Proof.
  intros Hmissing. unfold _config_stats_section.
  rewrite (StripFacts.bind_settings_missing _ _ Hmissing).
  cbn [Py.join_space].
  change (STATS_PORT conf ++ " " ++ "")%string with (STATS_PORT conf ++ " ")%string.
  rewrite StripFacts.strip_blank. simpl. eauto.
Qed.

Lemma stats_bind_without_extra_settings_witness :
  exists rest : list string,
    OrderedDict.get "listen stats" (_config_stats_section Sample.conf_api)
    = Some ("bind :1936" :: "mode http" :: rest).
Proof.
  refine (stats_bind_without_extra_settings Sample.conf_api _).
  intros v [].
Defined.

(** ** Frontend sections by mode *)

(** X17: the frontend resolver has three modes, decided by the
    topology and by the routes the TCP sections took.  With virtual hosts
    it builds the host-based frontend and never checks the routes, so no
    default route is required whatever remains unassigned.  Without
    virtual hosts it builds the default frontend exactly when the route
    check asks for it, and no frontend otherwise.  In each mode the
    monitor sections are merged last, told whether a monitoring URI was
    declared, and the bind options are those [_config_ssl] left. *)
Theorem frontend_sections_by_mode `{Helpers} (conf : Config) (specs : Specs)
    (c : ClassState) :
  let bind_opts := ssl_bind_string (self (after_ssl conf specs c)) in
  let added := routes_added (self (after_tcp conf specs c)) in
  let built :=
    if Py.nonempty (get_vhosts specs)
    then config_frontend_with_virtual_host (get_vhosts specs) bind_opts
    else if check_require_default_route (get_routes specs) added
         then config_default_frontend bind_opts
         else (OrderedDict.empty, false) in
  frontend_sections conf specs c
  = OrderedDict.update (fst built) (config_monitor_frontend (snd built))
  /\ require_default_route (self (after_frontends conf specs c))
     = negb (Py.nonempty (get_vhosts specs))
       && check_require_default_route (get_routes specs) added.
Proof.
  intros bind_opts added built.
  split; [| exact (proj1 (after_frontends_self conf specs c))].
  assert (Hbind : ssl_bind_string (self (after_tcp conf specs c)) = bind_opts).
  { unfold after_tcp, bind_opts.
    apply (builder_tcp_sections conf specs (after_ssl conf specs c)
             (after_ssl conf specs c) eq_refl). }
  unfold frontend_sections, _config_frontend_sections, built, added.
  destruct (after_tcp conf specs c) as [cl [bs upd ra rdr] tr]. simpl in Hbind.
  subst bs. run_monad.
  destruct (Py.nonempty (get_vhosts specs)); simpl; [reflexivity |].
  destruct (check_require_default_route (get_routes specs) ra); reflexivity.
Qed.

(** ** What is written and where *)

(** X18: whenever a cycle writes a file through [save_to_file], it is
    the configuration file of the settings and its content is the text of
    this very cycle; the text logged before the write is the same text. *)
Theorem written_file_is_the_text_of_the_cycle `{Helpers} (conf : Config)
    (specs : Specs) (w : World) (c : ClassState) (name content : string) :
  In (SaveToFile name content) (trace (cycle conf specs w c)) ->
  name = HAPROXY_CONFIG_FILE conf
  /\ content = cycle_text conf specs c
  /\ In (Log ("HAProxy configuration:" ++ Py.newline ++ content))
       (trace (cycle conf specs w c)).
Proof.
  rewrite cycle_trace. intros Hin. apply in_app_or in Hin.
  destruct Hin as [Hin | Hin].
  - exfalso. exact (ssl_events_no_save_to_file conf specs _ _ _ Hin).
  - assert (Heq : name = HAPROXY_CONFIG_FILE conf
                  /\ content = cycle_text conf specs c).
    { unfold detector_events in Hin.
      destruct (api_mode conf).
      - destruct (negb _).
        + destruct (save_to_file_result w); simpl in Hin;
            repeat (destruct Hin as [Hin | Hin];
                    [try discriminate; injection Hin as <- <-; auto |]);
            contradiction.
        + destruct (ssl_updated _); simpl in Hin;
            repeat (destruct Hin as [Hin | Hin]; [discriminate |]);
            contradiction.
      - simpl in Hin.
        repeat (destruct Hin as [Hin | Hin];
                [try discriminate; injection Hin as <- <-; auto |]);
        contradiction. }
    destruct Heq as [-> ->]. repeat split.
    apply in_or_app. right. unfold detector_events in *.
    destruct (api_mode conf).
    + destruct (negb _).
      * now left.
      * destruct (ssl_updated _); simpl in Hin;
          repeat (destruct Hin as [Hin | Hin]; [discriminate |]);
          contradiction.
    + now left.
Qed.

Lemma written_file_is_the_text_of_the_cycle_witness :
  In (SaveToFile "/haproxy.cfg"
        (cycle_text (H := Sample.helpers) Sample.conf_api Sample.specs_plain
           class_init))
    (trace (cycle (H := Sample.helpers) Sample.conf_api Sample.specs_plain
              Sample.world_ok class_init))
  /\ "/haproxy.cfg" = HAPROXY_CONFIG_FILE Sample.conf_api.
Proof.
  assert (Hin : In (SaveToFile "/haproxy.cfg"
                      (cycle_text (H := Sample.helpers) Sample.conf_api
                         Sample.specs_plain class_init))
                  (trace (cycle (H := Sample.helpers) Sample.conf_api
                            Sample.specs_plain Sample.world_ok class_init))).
  { right. left. reflexivity. }
  split; [exact Hin |].
  exact (proj1 (written_file_is_the_text_of_the_cycle (H := Sample.helpers)
                  Sample.conf_api Sample.specs_plain Sample.world_ok class_init
                  "/haproxy.cfg" _ Hin)).
Defined.

(** ** Routes recorded by the TCP sections *)

(** X19: what [self.routes_added] holds when the TCP sections are
    built.  It is still empty when no token is iterated; otherwise it is
    what [get_tcp_routes] reports for the token visited last, the reports of
    the tokens before having been replaced one after the other. *)
Theorem routes_added_after_tcp_sections `{Helpers} (conf : Config) (specs : Specs)
    (c : ClassState) :
  let bind_opts := ssl_bind_string (self (after_ssl conf specs c)) in
  (tcp_tokens specs = [] -> routes_added (self (after_tcp conf specs c)) = [])
  /\ (forall (ports : list string) (p : string),
        tcp_tokens specs = (ports ++ [p])%list ->
        routes_added (self (after_tcp conf specs c))
        = snd (get_tcp_routes (get_details specs) (get_routes specs) p
                 (tcp_port_num bind_opts p))).
Proof.
  intros bind_opts. unfold tcp_tokens, after_tcp, _config_tcp_sections.
  destruct (negb (get_service_attribute (get_details specs) "tcp_ports" None)).
  - split.
    + intros _. simpl. now rewrite after_ssl_eq.
    + intros ports p Heq. destruct ports; discriminate Heq.
  - split.
    + intros ->. simpl. now rewrite after_ssl_eq.
    + intros ports p ->. apply tcp_loop_routes_added_last.
Qed.

Lemma routes_added_after_tcp_sections_witness :
  tcp_tokens (H := Sample.helpers) Sample.specs_two_ports = (["80"] ++ ["5432"])%list
  /\ routes_added
       (self (after_tcp (H := Sample.helpers) Sample.conf_api Sample.specs_two_ports
                class_init))
     = [Sample.route_db].
Proof.
  split; [reflexivity |].
  exact (proj2 (routes_added_after_tcp_sections (H := Sample.helpers)
                  Sample.conf_api Sample.specs_two_ports class_init)
           ["80"] "5432" eq_refl).
Defined.
